(** * SETS: diagnostics snapshot, widget library and application shell

    A shallow embedding of the parts of
    - [logs/snapshot.py]   (module [Snapshot]),
    - [src/widgets.py]     (module [Widgets]),
    - [src/app.py]         (module [App])
    that the specification's testable properties talk about, followed by the
    theorems that settle those properties on the code.

    Conventions.
    - Python [int] is [Z]; Python [float] is modelled by exact rationals [Q]
      (the rounding of IEEE doubles is not modelled); [str] is [string].
      The one exception is the painting of [ShipImage], where the rounding
      decides what is drawn: its floats are binary64 numbers with the
      operations of [SpecFloat].
    - A statement that may raise is a computation in an exception monad;
      module-level variables of a script live in a [gmap string pyval], so a
      [try] block that raises half-way keeps the assignments made so far,
      as in Python.
    - Calls into Qt, tkinter and the operating system are inputs of the
      model: their outcomes are fields of a record or Section variables. *)

From Stdlib Require Import ZArith QArith Qround Lia Lqa Ascii String.
From Stdlib Require Import DecimalString.
From Stdlib Require SpecFloat.
From stdpp Require Import base option list strings gmap.

Local Open Scope string_scope.
Local Open Scope Z_scope.

(** ** Python values, exceptions and the script monad *)

Module Py.

Inductive exn :=
| AttributeError | ImportError | TclError | OSError | IndexError
| KeyError | NameError | TypeError | ZeroDivisionError
| OverflowError | ValueError.

Inductive exc (A : Type) : Type :=
| Ok (a : A)
| Raise (e : exn).
Arguments Ok {A} a.
Arguments Raise {A} e.

Definition exc_bind {A B} (f : A -> exc B) (m : exc A) : exc B :=
  match m with
  | Ok a => f a
  | Raise e => Raise e
  end.

#[global] Instance exc_ret : MRet exc := fun _ a => Ok a.
#[global] Instance exc_mbind : MBind exc := fun _ _ f m => exc_bind f m.

Definition is_ok {A} (m : exc A) : bool :=
  match m with Ok _ => true | Raise _ => false end.

(** Statements that read and write a state [S] and may raise: the state
    a statement leaves behind survives the exception. *)
Definition ST (S A : Type) : Type := S -> exc A * S.

Definition ST_bind {S A B} (f : A -> ST S B) (m : ST S A) : ST S B :=
  fun s =>
    match m s with
    | (Ok a, s') => f a s'
    | (Raise e, s') => (Raise e, s')
    end.

#[global] Instance ST_mret {S} : MRet (ST S) := fun _ a s => (Ok a, s).
#[global] Instance ST_mbind {S} : MBind (ST S) := fun _ _ f m => ST_bind f m.

Definition lift {S A} (m : exc A) : ST S A := fun s => (m, s).

(** [try: body / except: handler] with a bare [except]: every exception is
    caught, and the handler runs on the state as the body left it. *)
Definition try_except {S A} (body handler : ST S A) : ST S A :=
  fun s =>
    match body s with
    | (Ok a, s') => (Ok a, s')
    | (Raise _, s') => handler s'
    end.

Fixpoint for_ {S A} (l : list A) (body : A -> ST S unit) : ST S unit :=
  match l with
  | [] => mret tt
  | x :: l' => body x ;; for_ l' body
  end.

(** The values the snapshot script and the widget constructors handle. *)
Inductive pyval :=
| PStr (s : string)
| PInt (n : Z)
| PFloat (q : Q).

(** [a == b]: a [str] never equals an [int]; numbers compare by value. *)
Definition py_eq (a b : pyval) : bool :=
  match a, b with
  | PStr x, PStr y => String.eqb x y
  | PInt x, PInt y => Z.eqb x y
  | PFloat x, PFloat y => Qeq_bool x y
  | PInt x, PFloat y => Qeq_bool (inject_Z x) y
  | PFloat x, PInt y => Qeq_bool x (inject_Z y)
  | _, _ => false
  end.

(** [a >= b]: defined between numbers and between strings only. *)
Definition py_ge (a b : pyval) : exc bool :=
  match a, b with
  | PInt x, PInt y => Ok (Z.geb x y)
  | PFloat x, PFloat y => Ok (Qle_bool y x)
  | PInt x, PFloat y => Ok (Qle_bool y (inject_Z x))
  | PFloat x, PInt y => Ok (Qle_bool (inject_Z y) x)
  | PStr x, PStr y => Ok (negb (String.ltb x y))
  | _, _ => Raise TypeError
  end.

(** [a > b] *)
Definition py_gt (a b : pyval) : exc bool :=
  match a, b with
  | PInt x, PInt y => Ok (Z.gtb x y)
  | PFloat x, PFloat y => Ok (negb (Qle_bool x y))
  | PInt x, PFloat y => Ok (negb (Qle_bool (inject_Z x) y))
  | PFloat x, PInt y => Ok (negb (Qle_bool x (inject_Z y)))
  | PStr x, PStr y => Ok (String.ltb y x)
  | _, _ => Raise TypeError
  end.

(** Truth value of an object in an [if]. *)
Definition py_truthy (v : pyval) : bool :=
  match v with
  | PStr s => negb (String.eqb s "")
  | PInt n => negb (Z.eqb n 0)
  | PFloat q => negb (Qeq_bool q 0)
  end.

(** [a + b] *)
Definition py_add (a b : pyval) : exc pyval :=
  match a, b with
  | PStr x, PStr y => Ok (PStr (x ++ y))
  | PInt x, PInt y => Ok (PInt (x + y))
  | PFloat x, PFloat y => Ok (PFloat (x + y))
  | PInt x, PFloat y => Ok (PFloat (inject_Z x + y))
  | PFloat x, PInt y => Ok (PFloat (x + inject_Z y))
  | _, _ => Raise TypeError
  end.

(** [int(x)] of a float: truncation toward zero. *)
Definition py_int (q : Q) : Z :=
  if Qle_bool 0 q then Qfloor q else Qceiling q.

(** [a / b] with a float numerator, as the script uses it. *)
Definition py_div (a b : pyval) : exc pyval :=
  match a, b with
  | PFloat x, PInt y =>
      if Z.eqb y 0 then Raise ZeroDivisionError
      else Ok (PFloat (x / inject_Z y)%Q)
  | PFloat x, PFloat y =>
      if Qeq_bool y 0 then Raise ZeroDivisionError else Ok (PFloat (x / y)%Q)
  | PInt x, PInt y =>
      if Z.eqb y 0 then Raise ZeroDivisionError
      else Ok (PFloat (inject_Z x / inject_Z y)%Q)
  | PInt x, PFloat y =>
      if Qeq_bool y 0 then Raise ZeroDivisionError
      else Ok (PFloat (inject_Z x / y)%Q)
  | _, _ => Raise TypeError
  end.

(** [a / b] on [int]s: true division. *)
Definition py_truediv (a b : Z) : exc Q :=
  if Z.eqb b 0 then Raise ZeroDivisionError
  else Ok (inject_Z a / inject_Z b)%Q.

(** [round(x, 0)] of a float: to the nearest integer, ties to even. *)
Definition py_round0 (q : Q) : Q :=
  let f := Qfloor q in
  match Qcompare (q - inject_Z f) (1 # 2) with
  | Lt => inject_Z f
  | Gt => inject_Z (f + 1)
  | Eq => inject_Z (if Z.even f then f else f + 1)
  end.

(** [str(n)] of an [int]: its decimal digits, with a minus sign when
    negative. *)
Definition str_int (n : Z) : string := NilZero.string_of_int (Z.to_int n).

(** [s.replace(c, '')] for a one-character [c]. *)
Fixpoint remove_char (c : ascii) (s : string) : string :=
  match s with
  | EmptyString => EmptyString
  | String a s' =>
      if Ascii.eqb a c then remove_char c s' else String a (remove_char c s')
  end.

(** ['{:>{min}}'.format(s, min=n)]: right-align in a field of width [n]. *)
Fixpoint spaces (n : nat) : string :=
  match n with
  | O => EmptyString
  | S k => String " " (spaces k)
  end.

Definition rjust (n : nat) (s : string) : string :=
  spaces (n - String.length s) ++ s.

(** [s.replace(c, '')] on a value: only a [str] has the method. *)
Definition py_replace (v : pyval) (c : ascii) : exc pyval :=
  match v with
  | PStr s => Ok (PStr (remove_char c s))
  | _ => Raise AttributeError
  end.

(** Lookup in a [dict] kept in insertion order. *)
Fixpoint dict_get {V} (k : string) (d : list (string * V)) : option V :=
  match d with
  | [] => None
  | (k', v) :: d' => if String.eqb k k' then Some v else dict_get k d'
  end.

End Py.

(** ** [logs/snapshot.py]: the diagnostics snapshot script *)

Module Snapshot.
Import Py.

(** What the interpreter and the machine answer when the script asks.
    A call that can raise has its outcome as an [exc]. *)
Record host := {
  sys_version : string;                      (* sys.version *)
  platform_system : string;                  (* platform.system() *)
  platform_release : string;                 (* platform.release(), a str *)
  getwindowsversion_build : exc Z;           (* sys.getwindowsversion().build *)
  import_tkinter : exc unit;                 (* import tkinter as tk *)
  tcl_patchlevel : exc string;               (* tk.Tcl().call("info", "patchlevel") *)
  tk_Tk : exc unit;                          (* root = tk.Tk() *)
  winfo_screenwidth : exc Z;
  winfo_screenheight : exc Z;
  winfo_fpixels_1i : exc Q;                  (* root.winfo_fpixels('1i') *)
  os_release_rows : exc (list (list string));(* csv rows of /etc/os-release *)
  PIL_version_attr : exc string;             (* import PIL; PIL.__version__ *)
  numpy_version_attr : exc string;           (* import numpy; numpy.__version__ *)
  repr_float : Q -> string                   (* how str.format renders a float *)
}.

(** Module-level variables and what has been printed so far. *)
Record state := {
  globals : gmap string pyval;
  stdout : list string
}.

Abbreviation M := (ST state).

(** Reading a name that was never assigned raises [NameError]. *)
Definition var (x : string) : M pyval :=
  fun s =>
    match globals s !! x with
    | Some v => (Ok v, s)
    | None => (Raise NameError, s)
    end.

Definition assign (x : string) (v : pyval) : M unit :=
  fun s => (Ok tt, {| globals := <[x := v]> (globals s); stdout := stdout s |}).

Definition print (line : string) : M unit :=
  fun s => (Ok tt, {| globals := globals s; stdout := stdout s ++ [line] |}).

(** [str.format]: a template is a list of literal pieces and [{}] fields. *)
Inductive piece :=
| Lit (s : string)
| Arg (v : pyval).

Definition py_str (h : host) (v : pyval) : string :=
  match v with
  | PStr s => s
  | PInt n => str_int n
  | PFloat q => repr_float h q
  end.

Fixpoint format (h : host) (t : list piece) : string :=
  match t with
  | [] => ""
  | Lit s :: t' => s ++ format h t'
  | Arg v :: t' => py_str h v ++ format h t'
  end.

Definition CR : ascii := ascii_of_nat 13.
Definition LF : ascii := ascii_of_nat 10.

(** Lines 2-6. *)
Definition facts_block (h : host) : M unit :=
  assign "python_version" (PStr (sys_version h)) ;;
  v ← var "python_version";
  v' ← lift (py_replace v CR);
  assign "python_version" v' ;;
  v ← var "python_version";
  v' ← lift (py_replace v LF);
  assign "python_version" v' ;;
  assign "system" (PStr (platform_system h)) ;;
  assign "release" (PStr (platform_release h)).

(** Lines 8-13.  The condition is an [and] chain, evaluated left to right
    and stopping at the first false operand. *)
Definition release_block (h : host) : M unit :=
  try_except
    (b ← lift (getwindowsversion_build h);
     assign "build" (PInt b) ;;
     system ← var "system";
     c ← (if py_eq system (PStr "Windows") then
            release ← var "release";
            if py_eq release (PInt 10) then
              build ← var "build";
              lift (py_ge build (PInt 22000))
            else mret false
          else mret false);
     if c : bool then assign "release" (PInt 11) else mret tt)
    (assign "build" (PStr "")).

(** Lines 15-26. *)
Definition tkinter_block (h : host) : M unit :=
  try_except
    (lift (import_tkinter h) ;;
     v ← lift (tcl_patchlevel h);
     assign "tkinter_version" (PStr v) ;;
     lift (tk_Tk h) ;;
     sw ← lift (winfo_screenwidth h);
     sh ← lift (winfo_screenheight h);
     assign "tk_screen_geometry"
       (PStr (format h [Arg (PInt sw); Lit "x"; Arg (PInt sh)])) ;;
     px ← lift (winfo_fpixels_1i h);
     assign "dpi" (PFloat (py_round0 px)) ;;
     dpi ← var "dpi";
     f ← lift (py_div dpi (PInt 96));
     assign "factor" f)
    (assign "tkinter_version" (PStr "fail") ;;
     assign "tk_screen_geometry" (PStr "fail") ;;
     assign "dpi" (PStr "") ;;
     assign "factor" (PStr "")).

(** Lines 29-35, the body of the third [try].  [release_data] is only used
    inside the block, so it is kept as a local map: each row stores
    [row[0] -> row[1]] ([IndexError] on a row with fewer than two cells),
    then [NAME] and [VERSION] are looked up ([KeyError] when absent). *)
Definition row_cell (row : list string) (i : nat) : exc string :=
  match row !! i with
  | Some c => Ok c
  | None => Raise IndexError
  end.

Fixpoint read_rows (rows : list (list string)) (release_data : gmap string string)
  : exc (gmap string string) :=
  match rows with
  | [] => Ok release_data
  | row :: rows' =>
      k ← row_cell row 0;
      v ← row_cell row 1;
      read_rows rows' (<[k := v]> release_data)
  end.

Definition dict_item (d : gmap string string) (k : string) : exc string :=
  match d !! k with
  | Some v => Ok v
  | None => Raise KeyError
  end.

Definition distribution_probe (h : host) : exc string :=
  rows ← os_release_rows h;
  release_data ← read_rows rows ∅;
  name ← dict_item release_data "NAME";
  version ← dict_item release_data "VERSION";
  Ok (format h [Arg (PStr name); Lit " "; Arg (PStr version)]).

(** Lines 28-37. *)
Definition distribution_block (h : host) : M unit :=
  try_except
    (d ← lift (distribution_probe h);
     assign "distribution" (PStr d))
    (assign "distribution" (PStr "")).

(** Lines 39-43. *)
Definition os_text_block (h : host) : M unit :=
  system ← var "system";
  release ← var "release";
  assign "os_text" (PStr (format h [Arg system; Lit " "; Arg release])) ;;
  build ← var "build";
  (if py_truthy build then
     t ← var "os_text";
     t' ← lift (py_add t (PStr (format h [Lit " ("; Arg build; Lit ")"])));
     assign "os_text" t'
   else mret tt) ;;
  distribution ← var "distribution";
  (if py_truthy distribution then
     t ← var "os_text";
     t' ← lift (py_add t (PStr (format h [Lit " ("; Arg distribution; Lit ")"])));
     assign "os_text" t'
   else mret tt).

(** Lines 45-55. *)
Definition version_block (x : string) (probe : exc string) : M unit :=
  try_except
    (v ← lift probe;
     assign x (PStr v))
    (assign x (PStr "fail")).

(** Lines 57-82.  [snapshot] and [modules] are dict literals, kept in
    insertion order. *)
Definition report_block (h : host) : M unit :=
  python_version ← var "python_version";
  os_text ← var "os_text";
  tk_screen_geometry ← var "tk_screen_geometry";
  dpi ← var "dpi";
  factor ← var "factor";
  let snapshot :=
    [("python", python_version);
     ("OS", os_text);
     ("screen-dpi",
      PStr (format h [Arg tk_screen_geometry; Lit " ("; Arg dpi;
                      Lit "dpi x"; Arg factor; Lit ")"]))] in
  tkinter_version ← var "tkinter_version";
  PIL_version ← var "PIL_version";
  numpy_version ← var "numpy_version";
  let modules :=
    [("tkinter", tkinter_version);
     ("Pillow", PIL_version);
     ("numpy", numpy_version)] in
  assign "min_title_width" (PInt 5) ;;
  for_ (map fst snapshot) (fun type =>
    assign "type" (PStr type) ;;
    m ← var "min_title_width";
    c ← lift (py_gt (PInt (Z.of_nat (String.length type))) m);
    if c : bool
    then assign "min_title_width" (PInt (Z.of_nat (String.length type)))
    else mret tt) ;;
  for_ snapshot (fun '(type, value) =>
    assign "type" (PStr type) ;;
    m ← var "min_title_width";
    w ← lift (py_add m (PInt 1));
    match w with
    | PInt n =>
        print (format h [Lit (rjust (Z.to_nat n) type); Lit ": "; Arg value])
    | _ => lift (Raise TypeError)
    end) ;;
  m ← var "min_title_width";
  w ← lift (py_add m (PInt 1));
  match w with
  | PInt n => assign "modules_text" (PStr (rjust (Z.to_nat n) "modules" ++ ": "))
  | _ => lift (Raise TypeError)
  end ;;
  for_ modules (fun '(type, value) =>
    assign "type" (PStr type) ;;
    t ← var "modules_text";
    t' ← lift (py_add t (PStr (format h [Lit "("; Arg (PStr type); Lit " ";
                                         Arg value; Lit ") "])));
    assign "modules_text" t') ;;
  t ← var "modules_text";
  print (py_str h t).

Definition script (h : host) : M unit :=
  facts_block h ;;
  release_block h ;;
  tkinter_block h ;;
  distribution_block h ;;
  os_text_block h ;;
  version_block "PIL_version" (PIL_version_attr h) ;;
  version_block "numpy_version" (numpy_version_attr h) ;;
  report_block h.

Definition initial : state := {| globals := ∅; stdout := [] |}.

Definition run (h : host) : exc unit * state := script h initial.

(** The value a variable holds when the script ends. *)
Definition final (h : host) (x : string) : option pyval :=
  globals (snd (run h)) !! x.

(** *** The outcome in closed form

    What each variable holds when the script ends, read off the blocks
    above; the theorems show the script computes exactly these. *)

Definition put (x : string) (v : pyval) (s : state) : state :=
  {| globals := <[x := v]> (globals s); stdout := stdout s |}.

Definition get (s : state) (x : string) : option pyval := globals s !! x.

Definition emit (line : string) (s : state) : state :=
  {| globals := globals s; stdout := stdout s ++ [line] |}.

Definition or_else {A} (m : exc A) (d : A) : A :=
  match m with
  | Ok a => a
  | Raise _ => d
  end.

(** The calls of the second [try] body, in order. *)
Definition tkinter_probe (h : host) : exc (string * Z * Z * Q) :=
  _ ← import_tkinter h;
  v ← tcl_patchlevel h;
  _ ← tk_Tk h;
  sw ← winfo_screenwidth h;
  sh ← winfo_screenheight h;
  px ← winfo_fpixels_1i h;
  Ok (v, sw, sh, px).

Definition tkinter_version_of (h : host) : pyval :=
  match tkinter_probe h with
  | Ok (v, _, _, _) => PStr v
  | Raise _ => PStr "fail"
  end.

Definition tk_screen_geometry_of (h : host) : pyval :=
  match tkinter_probe h with
  | Ok (_, sw, sh, _) => PStr (format h [Arg (PInt sw); Lit "x"; Arg (PInt sh)])
  | Raise _ => PStr "fail"
  end.

Definition dpi_of (h : host) : pyval :=
  match tkinter_probe h with
  | Ok (_, _, _, px) => PFloat (py_round0 px)
  | Raise _ => PStr ""
  end.

Definition factor_of (h : host) : pyval :=
  match tkinter_probe h with
  | Ok (_, _, _, px) => PFloat (py_round0 px / inject_Z 96)%Q
  | Raise _ => PStr ""
  end.

Definition build_of (h : host) : pyval :=
  match getwindowsversion_build h with
  | Ok b => PInt b
  | Raise _ => PStr ""
  end.

Definition distribution_of (h : host) : pyval :=
  PStr (or_else (distribution_probe h) "").

Definition version_of (probe : exc string) : pyval :=
  PStr (or_else probe "fail").

Definition python_version_of (h : host) : pyval :=
  PStr (remove_char LF (remove_char CR (sys_version h))).

Definition os_text_of (h : host) : string :=
  let t := format h [Arg (PStr (platform_system h)); Lit " ";
                     Arg (PStr (platform_release h))] in
  let t := if py_truthy (build_of h)
           then t ++ format h [Lit " ("; Arg (build_of h); Lit ")"]
           else t in
  if py_truthy (distribution_of h)
  then t ++ format h [Lit " ("; Arg (distribution_of h); Lit ")"]
  else t.

(** A row of the report: the label right-aligned in 11 columns. *)
Definition row (h : host) (label : string) (v : pyval) : string :=
  format h [Lit (rjust 11 label); Lit ": "; Arg v].

(** The four printed lines, from the values of the eight variables the
    report reads. *)
Definition report_rows (h : host)
    (python_version os_text geometry dpi factor tkv pilv npv : pyval)
  : list string :=
  [row h "python" python_version;
   row h "OS" os_text;
   row h "screen-dpi"
     (PStr (format h [Arg geometry; Lit " ("; Arg dpi; Lit "dpi x";
                      Arg factor; Lit ")"]));
   (((rjust 11 "modules" ++ ": ")
     ++ format h [Lit "("; Arg (PStr "tkinter"); Lit " "; Arg tkv; Lit ") "])
     ++ format h [Lit "("; Arg (PStr "Pillow"); Lit " "; Arg pilv; Lit ") "])
     ++ format h [Lit "("; Arg (PStr "numpy"); Lit " "; Arg npv; Lit ") "]].

Definition report_of (h : host) : list string :=
  report_rows h (python_version_of h) (PStr (os_text_of h))
    (tk_screen_geometry_of h) (dpi_of h) (factor_of h)
    (tkinter_version_of h) (version_of (PIL_version_attr h))
    (version_of (numpy_version_attr h)).

(** The specification's wording for the display probes: when one of them
    raises, the display values are the empty string. *)
Definition display_probes_empty_on_failure (h : host) : Prop :=
  is_ok (tkinter_probe h) = false ->
  final h "tk_screen_geometry" = Some (PStr "") /\
  final h "dpi" = Some (PStr "") /\
  final h "factor" = Some (PStr "").

(** *** Hosts to run the script on *)

Definition render_float (q : Q) : string :=
  str_int (Qfloor q) ++ ".0".

(** Windows 11: the family is "Windows", [platform.release()] still says
    "10", and the build is 22000. *)
Definition windows11_host : host :=
  {| sys_version := "3.12.1 (tags/v3.12.1, Dec  7 2023) [MSC v.1937 64 bit]";
     platform_system := "Windows";
     platform_release := "10";
     getwindowsversion_build := Ok 22000;
     import_tkinter := Ok tt;
     tcl_patchlevel := Ok "8.6.13";
     tk_Tk := Ok tt;
     winfo_screenwidth := Ok 1920;
     winfo_screenheight := Ok 1080;
     winfo_fpixels_1i := Ok (96 # 1)%Q;
     os_release_rows := Raise OSError;
     PIL_version_attr := Ok "10.1.0";
     numpy_version_attr := Ok "1.26.2";
     repr_float := render_float |}.

(** A Linux machine without a display: tkinter imports, [tk.Tk()] raises. *)
Definition headless_host : host :=
  {| sys_version := "3.12.1 (main, Dec  8 2023) [GCC 13.2.0]";
     platform_system := "Linux";
     platform_release := "6.5.0";
     getwindowsversion_build := Raise AttributeError;
     import_tkinter := Ok tt;
     tcl_patchlevel := Ok "8.6.13";
     tk_Tk := Raise TclError;
     winfo_screenwidth := Raise TclError;
     winfo_screenheight := Raise TclError;
     winfo_fpixels_1i := Raise TclError;
     os_release_rows :=
       Ok [["NAME"; "Ubuntu"]; ["VERSION"; "23.10 (Mantic Minotaur)"];
           ["ID"; "ubuntu"]];
     PIL_version_attr := Raise ImportError;
     numpy_version_attr := Ok "1.26.2";
     repr_float := render_float |}.


(** *** Reading [/etc/os-release], in closed form *)

(** The value a key ends up with in [release_data]: the second cell of
    the last row whose first cell is the key. *)
Fixpoint last_value (k : string) (rows : list (list string)) : option string :=
  match rows with
  | [] => None
  | row :: rows' =>
      match last_value k rows' with
      | Some v => Some v
      | None =>
          match row with
          | k' :: v :: _ => if String.eqb k' k then Some v else None
          | _ => None
          end
      end
  end.

End Snapshot.

(** ** [src/widgets.py]: image labels and item buttons *)

Module Widgets.
Import Py.

(** *** Qt objects, as far as the widgets look at them *)

(** A [QImage] is seen through its size; the null image is [0 x 0], and
    an image without pixels is null. *)
Record QImage := {
  img_width : Z;
  img_height : Z
}.

Definition null_image : QImage := {| img_width := 0; img_height := 0 |}.

Definition isNull (p : QImage) : bool :=
  (img_width p <=? 0) || (img_height p <=? 0).

(** A call of [QPainter.drawImage]. *)
Inductive draw :=
| DrawInRect (x y w h : Z) (img : QImage)   (* drawImage(QRect(x, y, w, h), img) *)
| DrawAt (x y : Z) (img : QImage).          (* drawImage(x, y, img) *)

(** The [QWidget] part of a label: its geometry, its height limits, what
    has been painted on it and how often [update()] was requested. *)
Record QWidget := {
  width : Z;
  height : Z;
  minimumHeight : Z;
  maximumHeight : Z;
  painted : list draw;
  updates : nat
}.

(** [setMinimumHeight(h)]: the widget grows at once when it is lower. *)
Definition setMinimumHeight (h : Z) (q : QWidget) : QWidget :=
  {| width := width q; height := Z.max (height q) h;
     minimumHeight := h; maximumHeight := maximumHeight q;
     painted := painted q; updates := updates q |}.

(** [setFixedHeight(h)]: minimum and maximum height become [h], and so
    does the height. *)
Definition setFixedHeight (h : Z) (q : QWidget) : QWidget :=
  {| width := width q; height := h;
     minimumHeight := h; maximumHeight := h;
     painted := painted q; updates := updates q |}.

Definition drawImage (d : draw) (q : QWidget) : QWidget :=
  {| width := width q; height := height q;
     minimumHeight := minimumHeight q; maximumHeight := maximumHeight q;
     painted := painted q ++ [d]; updates := updates q |}.

Definition update (q : QWidget) : QWidget :=
  {| width := width q; height := height q;
     minimumHeight := minimumHeight q; maximumHeight := maximumHeight q;
     painted := painted q; updates := S (updates q) |}.

(** *** [ImageLabel] and [ShipImage] *)

Record ImageLabel := {
  widget : QWidget;
  _w : Z;
  _h : Z;
  p : QImage
}.

Definition with_widget (f : QWidget -> QWidget) (self : ImageLabel) : ImageLabel :=
  {| widget := f (widget self); _w := _w self; _h := _h self; p := p self |}.

(** *** Floats

    A Python [float] is an IEEE 754 binary64 number, and its operations
    round to nearest, ties to even, as [SpecFloat] defines them. *)
Definition float : Type := SpecFloat.spec_float.

(** An [int] as an exact operand. *)
Definition exact_int (n : Z) : float :=
  match n with
  | 0 => SpecFloat.S754_zero false
  | Zpos m => SpecFloat.S754_finite false m 0
  | Zneg m => SpecFloat.S754_finite true m 0
  end.

(** [float(n)], the conversion [int * float] and [float - int] apply to
    their [int]: the nearest float, [OverflowError] when there is none. *)
Definition float_of_int (n : Z) : exc float :=
  match SpecFloat.binary_normalize 53 1024 n 0 false with
  | SpecFloat.S754_infinity _ => Raise OverflowError
  | x => Ok x
  end.

(** [a / b] on two [int]s: the quotient, rounded once. *)
Definition int_truediv (a b : Z) : exc float :=
  if b =? 0 then Raise ZeroDivisionError
  else
    match SpecFloat.SFdiv 53 1024 (exact_int a) (exact_int b) with
    | SpecFloat.S754_infinity _ => Raise OverflowError
    | x => Ok x
    end.

(** [min(a, b)]: the first argument unless the second is smaller. *)
Definition float_min (a b : float) : float :=
  if SpecFloat.SFltb b a then b else a.

Definition float_mul (a b : float) : float := SpecFloat.SFmul 53 1024 a b.
Definition float_sub (a b : float) : float := SpecFloat.SFsub 53 1024 a b.
Definition float_abs (a : float) : float := SpecFloat.SFabs a.

(** [a // 2]: the largest integer not above half of [a], which is a float
    again; not a number when [a] is infinite. *)
Definition float_floordiv2 (a : float) : float :=
  match a with
  | SpecFloat.S754_zero s => SpecFloat.S754_zero s
  | SpecFloat.S754_finite s m e =>
      let n := if s then Zneg m else Zpos m in
      let k :=
        match e with
        | Zpos _ => n * 2 ^ (e - 1)
        | _ => n / 2 ^ (1 - e)
        end in
      SpecFloat.binary_normalize 53 1024 k 0 s
  | _ => SpecFloat.S754_nan
  end.

(** [int(a)]: the fraction is cut off. *)
Definition float_to_int (a : float) : exc Z :=
  match a with
  | SpecFloat.S754_zero _ => Ok 0
  | SpecFloat.S754_finite s m e =>
      let v :=
        match e with
        | Zneg k => Z.shiftr (Zpos m) (Zpos k)
        | _ => Z.shiftl (Zpos m) e
        end in
      Ok (if s then - v else v)
  | SpecFloat.S754_infinity _ => Raise OverflowError
  | SpecFloat.S754_nan => Raise ValueError
  end.

Section Qt.

(** [QImage(path)]: the image stored in the file, null when it cannot be
    read; and [QImage.scaledToWidth]. *)
Variable QImage_load : string -> QImage.
Variable scaledToWidth : QImage -> Z -> QImage.

(** [ImageLabel.__init__(path, aspect_ratio)] on the widget [QWidget.__init__]
    made. *)
Definition ImageLabel_init (path : string) (aspect_ratio : Z * Z) (base : QWidget)
  : ImageLabel :=
  let '(w, h) := aspect_ratio in
  let img := if String.eqb path "" then null_image else QImage_load path in
  {| widget := update (setMinimumHeight 10 base); _w := w; _h := h; p := img |}.

(** The default of [aspect_ratio]. *)
Definition default_aspect_ratio : Z * Z := (0, 0).

Definition set_image (img : QImage) (self : ImageLabel) : ImageLabel :=
  {| widget := update (widget self);
     _w := img_width img; _h := img_height img; p := img |}.

(** [ImageLabel.paintEvent] *)
Definition ImageLabel_paintEvent (self : ImageLabel) : exc ImageLabel :=
  if negb (isNull (p self)) then
    let w := width (widget self) in
    q ← py_truediv (w * _h self) (_w self);
    let h := py_int q in
    Ok (with_widget (setFixedHeight h)
          (with_widget (drawImage (DrawInRect 0 0 w h (p self))) self))
  else Ok self.

(** What [ShipImage.paintEvent] does after the inherited [paintEvent],
    statement by statement.  The float arguments of [scaledToWidth] and
    [drawImage] are converted to [int] by the binding. *)
Definition ShipImage_paint (self : ImageLabel) : exc ImageLabel :=
  if negb (isNull (p self)) then
    let current_width := width (widget self) in
    let current_height := height (widget self) in
    a ← int_truediv current_width (_w self);
    b ← int_truediv current_height (_h self);
    let scale_factor := float_min a b in
    fw ← float_of_int (_w self);
    let w := float_mul fw scale_factor in
    fh ← float_of_int (_h self);
    let h := float_mul fh scale_factor in
    wi ← float_to_int w;
    let new_p := scaledToWidth (p self) wi in
    cw ← float_of_int current_width;
    x ← float_to_int (float_floordiv2 (float_abs (float_sub w cw)));
    ch ← float_of_int current_height;
    y ← float_to_int (float_floordiv2 (float_abs (float_sub h ch)));
    Ok (with_widget (setFixedHeight (img_height new_p))
          (with_widget (drawImage (DrawAt x y new_p)) self))
  else Ok self.

(** [ShipImage.paintEvent] *)
Definition ShipImage_paintEvent (self : ImageLabel) : exc ImageLabel :=
  self' ← ImageLabel_paintEvent self;
  ShipImage_paint self'.

End Qt.

(** *** [ItemButton] *)

Inductive MouseButton := LeftButton | RightButton | MiddleButton | NoButton.

(** [a == b] on buttons *)
Definition MouseButton_eqb (a b : MouseButton) : bool :=
  match a, b with
  | LeftButton, LeftButton => true
  | RightButton, RightButton => true
  | MiddleButton, MiddleButton => true
  | NoButton, NoButton => true
  | _, _ => false
  end.

(** A [QMouseEvent]: the button and [localPos()], a point with float
    coordinates relative to the widget's top-left corner. *)
Record QMouseEvent := {
  button : MouseButton;
  localPos_x : Q;
  localPos_y : Q;
  accepted : bool
}.

Definition accept (e : QMouseEvent) : QMouseEvent :=
  {| button := button e; localPos_x := localPos_x e;
     localPos_y := localPos_y e; accepted := true |}.

Inductive signal := clicked | rightclicked.

(** [a < b] on floats *)
Definition Qltb (a b : Q) : bool := negb (Qle_bool b a).

(** [ItemButton.mouseReleaseEvent] on a button of the given size: the
    signals emitted, in order, and the event afterwards. *)
Definition mouseReleaseEvent (self_width self_height : Z) (event : QMouseEvent)
  : list signal * QMouseEvent :=
  if MouseButton_eqb (button event) LeftButton
     && Qltb (localPos_x event) (inject_Z self_width)
     && Qltb (localPos_y event) (inject_Z self_height)
  then ([clicked], accept event)
  else if MouseButton_eqb (button event) RightButton
          && Qltb (localPos_x event) (inject_Z self_width)
          && Qltb (localPos_y event) (inject_Z self_height)
  then ([rightclicked], accept event)
  else ([], accept event).

(** The point lies in the button's rectangle [0 <= x < width],
    [0 <= y < height]. *)
Definition inside (self_width self_height : Z) (event : QMouseEvent) : Prop :=
  (0 <= localPos_x event)%Q /\ (localPos_x event < inject_Z self_width)%Q /\
  (0 <= localPos_y event)%Q /\ (localPos_y event < inject_Z self_height)%Q.

(** *** Constructor calls *)

(** An argument of a constructor call. *)
Inductive arg :=
| AInt (n : Z)
| AStr (s : string)
| AObj (name : string).

(** A call [f(a1, ..., an, k1=v1, ..., km=vm)]. *)
Record call := {
  positional : list arg;
  keywords : list (string * arg)
}.

(** The parameters of [ItemButton.__init__] after [self], with their
    defaults. *)
Definition ItemButton_params : list (string * arg) :=
  [("width", AInt 49); ("height", AInt 64);
   ("stylesheet", AStr ""); ("tooltip_label", AStr "")].

(** What a call binds: the named parameters, [*args] and [**kwargs]. *)
Record bound := {
  named : list (string * arg);
  args : list arg;
  kwargs : list (string * arg)
}.

(** Binding of the named parameters: positional arguments fill them from
    the left, a keyword fills its own parameter ([TypeError] when it is
    already filled), a default fills what is left. *)
Fixpoint bind_named (params : list (string * arg)) (pos : list arg)
    (kw : list (string * arg)) : exc (list (string * arg)) :=
  match params with
  | [] => Ok []
  | (name, dflt) :: params' =>
      match pos with
      | a :: pos' =>
          match dict_get name kw with
          | Some _ => Raise TypeError
          | None => rest ← bind_named params' pos' kw; Ok ((name, a) :: rest)
          end
      | [] =>
          rest ← bind_named params' [] kw;
          Ok ((name, default dflt (dict_get name kw)) :: rest)
      end
  end.

Definition is_param (params : list (string * arg)) (k : string) : bool :=
  bool_decide (k ∈ map fst params).

Definition bind_call (params : list (string * arg)) (c : call) : exc bound :=
  n ← bind_named params (positional c) (keywords c);
  Ok {| named := n;
        args := drop (length params) (positional c);
        kwargs := filter (fun kv => is_param params (fst kv) = false) (keywords c) |}.

(** [super().__init__( *args, *kwargs)] in [ItemButton.__init__]: a dict
    unpacked with one star yields its keys. *)
Definition ItemButton_super_call (c : call) : exc call :=
  b ← bind_call ItemButton_params c;
  Ok {| positional := args b ++ map (fun kv => AStr (fst kv)) (kwargs b);
        keywords := [] |}.

(** [QFrame( *args, **kwargs)]: what a call that passes both on receives;
    [ItemImage.__init__] forwards to [QWidget] this way. *)
Definition plain_super_call (b : bound) : call :=
  {| positional := args b; keywords := kwargs b |}.

(** The argument a call gives to the parameter at position [i] named
    [name]: the positional argument at [i], else the keyword [name], else
    the default. *)
Definition call_arg (c : call) (i : nat) (name : string) (dflt : arg) : arg :=
  match positional c !! i with
  | Some a => a
  | None => default dflt (dict_get name (keywords c))
  end.

(** The specification's words, for comparison: a [ShipImage] with
    container box [(Cw, Ch)] scales the image by the single factor
    [min(Cw/W, Ch/H)], centers the scaled image in the box, and fixes its
    height to the scaled image's height.  The result is where the scaled
    image is drawn and how large it is: [(x, y, w, h)]. *)
Definition spec_ShipImage_box (W H Cw Ch : Z) : Z * Z * Z * Z :=
  let a := (inject_Z Cw / inject_Z W)%Q in
  let b := (inject_Z Ch / inject_Z H)%Q in
  let s := if Qle_bool a b then a else b in
  let w := Qfloor (inject_Z W * s) in
  let h := Qfloor (inject_Z H * s) in
  ((Cw - w) / 2, (Ch - h) / 2, w, h).


(** *** Widgets, events and calls to run the code on *)

(** A scaling to run [ShipImage] with: the width asked for, the height in
    proportion, rounded. *)
Definition scale_in_proportion (img : QImage) (w : Z) : QImage :=
  {| img_width := w;
     img_height :=
       Qfloor (inject_Z (img_height img * w) / inject_Z (img_width img)
               + (1 # 2))%Q |}.

Definition fresh_widget (w h : Z) : QWidget :=
  {| width := w; height := h; minimumHeight := 0; maximumHeight := 16777215;
     painted := []; updates := 0 |}.

(** A 400 x 200 picture in a label that is 300 wide and 100 high. *)
Definition picture : QImage := {| img_width := 400; img_height := 200 |}.

Definition picture_label : ImageLabel :=
  {| widget := fresh_widget 300 100; _w := 400; _h := 200; p := picture |}.

(** The same picture loaded from a file by the constructor. *)
Definition load_picture (path : string) : QImage :=
  if String.eqb path "ship.png" then picture else null_image.

(** A left-button release five pixels to the left of a 49 x 64 button:
    the press began on the button and the pointer was dragged off it. *)
Definition release_left_of_button : QMouseEvent :=
  {| button := LeftButton; localPos_x := (-5 # 1)%Q; localPos_y := (10 # 1)%Q;
     accepted := false |}.

Definition release_on_button (b : MouseButton) : QMouseEvent :=
  {| button := b; localPos_x := (20 # 1)%Q; localPos_y := (10 # 1)%Q;
     accepted := false |}.

(** [ItemButton(49, 64, parent=frame)] *)
Definition call_with_parent : call :=
  {| positional := [AInt 49; AInt 64];
     keywords := [("parent", AObj "frame")] |}.


(** *** [ItemImage] and the rest of [ItemButton] *)

(** A [QLabel] used as a tooltip window: its text, whether it is shown,
    its fixed width and where it was moved to. *)
Record QLabel := {
  text : string;
  visible : bool;
  fixedWidth : option Z;
  pos : Z * Z
}.

(** [setFixedSize(w, h)] *)
Definition setFixedSize (w h : Z) (q : QWidget) : QWidget :=
  {| width := w; height := h; minimumHeight := h; maximumHeight := h;
     painted := painted q; updates := updates q |}.

(** [ItemImage]: the widget and [_rect]; [_button] is the button that owns
    it, whose [_base] and [_overlay] it paints. *)
Record ItemImage := {
  image_widget : QWidget;
  _rect : Z * Z * Z * Z
}.

(** [ItemImage.__init__(button, width, height)] on the widget
    [QWidget.__init__] made. *)
Definition ItemImage_init (width height : Z) (base : QWidget) : ItemImage :=
  {| image_widget := setFixedSize width height base;
     _rect := (0, 0, width, height) |}.

Record ItemButton := {
  frame : QWidget;
  _image_space : ItemImage;
  _base : option QImage;
  _overlay : option QImage;
  _tooltip : QLabel
}.

(** [self._image_space.update()] *)
Definition update_image_space (s : ItemImage) : ItemImage :=
  {| image_widget := update (image_widget s); _rect := _rect s |}.

(** An [int] argument; anything else is refused by [QRect] and
    [setFixedWidth]. *)
Definition int_arg (a : arg) : exc Z :=
  match a with
  | AInt n => Ok n
  | _ => Raise TypeError
  end.

(** A [str] argument, for [setStyleSheet]. *)
Definition str_arg (a : arg) : exc string :=
  match a with
  | AStr s => Ok s
  | _ => Raise TypeError
  end.

(** The value a call bound to a named parameter. *)
Definition named_arg (b : bound) (name : string) : exc arg :=
  match dict_get name (named b) with
  | Some a => Ok a
  | None => Raise NameError
  end.

Section Objects.

(** [QFrame.__init__] on the arguments it is called with, the widget
    [QWidget.__init__()] makes, and the labels that exist: an object
    argument that is a [QLabel]. *)
Variable QFrame_init : call -> exc QWidget.
Variable QWidget_init : QWidget.
Variable labels : string -> option QLabel.

(** [tooltip_label.setWindowFlags(...)], [.setWordWrap(True)]: only a
    [QLabel] has the methods. *)
Definition as_label (a : arg) : exc QLabel :=
  match a with
  | AObj name =>
      match labels name with
      | Some l => Ok l
      | None => Raise AttributeError
      end
  | _ => Raise AttributeError
  end.

(** [ItemButton.__init__] *)
Definition ItemButton_init (c : call) : exc ItemButton :=
  b ← bind_call ItemButton_params c;
  super ← ItemButton_super_call c;
  fr ← QFrame_init super;
  width ← named_arg b "width";
  height ← named_arg b "height";
  w ← int_arg width;
  h ← int_arg height;
  let image_space := ItemImage_init w h QWidget_init in
  stylesheet ← named_arg b "stylesheet";
  _ ← str_arg stylesheet;
  tooltip_label ← named_arg b "tooltip_label";
  tooltip ← as_label tooltip_label;
  Ok {| frame := fr; _image_space := image_space; _base := None;
        _overlay := None; _tooltip := tooltip |}.

End Objects.

(** The [tooltip] property. *)
Definition tooltip (self : ItemButton) : string := text (_tooltip self).

Definition setText (t : string) (l : QLabel) : QLabel :=
  {| text := t; visible := visible l; fixedWidth := fixedWidth l; pos := pos l |}.

Definition set_tooltip (new_tooltip : string) (self : ItemButton) : ItemButton :=
  {| frame := frame self; _image_space := _image_space self; _base := _base self;
     _overlay := _overlay self; _tooltip := setText new_tooltip (_tooltip self) |}.

(** [ItemButton.enterEvent]: [window_width] is [self.window().width()] and
    [top_left] is [self.parentWidget().mapToGlobal(self.geometry().topLeft())]. *)
Definition enterEvent (window_width : Z) (top_left : Z * Z) (self : ItemButton)
  : ItemButton :=
  if negb (String.eqb (tooltip self) "") then
    let tooltip_width := window_width / 5 in
    let position := (fst top_left - tooltip_width - 1, snd top_left) in
    {| frame := frame self; _image_space := _image_space self; _base := _base self;
       _overlay := _overlay self;
       _tooltip := {| text := text (_tooltip self); visible := true;
                      fixedWidth := Some tooltip_width; pos := position |} |}
  else self.

(** [ItemButton.leaveEvent] *)
Definition leaveEvent (self : ItemButton) : ItemButton :=
  {| frame := frame self; _image_space := _image_space self; _base := _base self;
     _overlay := _overlay self;
     _tooltip := {| text := text (_tooltip self); visible := false;
                    fixedWidth := fixedWidth (_tooltip self);
                    pos := pos (_tooltip self) |} |}.

Definition set_item (image : QImage) (self : ItemButton) : ItemButton :=
  {| frame := frame self; _image_space := update_image_space (_image_space self);
     _base := Some image; _overlay := _overlay self; _tooltip := _tooltip self |}.

Definition set_overlay (image : QImage) (self : ItemButton) : ItemButton :=
  {| frame := frame self; _image_space := update_image_space (_image_space self);
     _base := _base self; _overlay := Some image; _tooltip := _tooltip self |}.

Definition set_item_overlay (item_image overlay_image : QImage) (self : ItemButton)
  : ItemButton :=
  {| frame := frame self; _image_space := update_image_space (_image_space self);
     _base := Some item_image; _overlay := Some overlay_image;
     _tooltip := _tooltip self |}.

Definition set_item_full (item_image overlay_image : QImage) (t : string)
    (self : ItemButton) : ItemButton :=
  {| frame := frame self; _image_space := update_image_space (_image_space self);
     _base := Some item_image; _overlay := Some overlay_image;
     _tooltip := setText t (_tooltip self) |}.

Definition clear (self : ItemButton) : ItemButton :=
  {| frame := frame self; _image_space := update_image_space (_image_space self);
     _base := None; _overlay := None; _tooltip := setText "" (_tooltip self) |}.

Definition clear_item (self : ItemButton) : ItemButton :=
  {| frame := frame self; _image_space := update_image_space (_image_space self);
     _base := None; _overlay := _overlay self; _tooltip := _tooltip self |}.

Definition clear_overlay (self : ItemButton) : ItemButton :=
  {| frame := frame self; _image_space := update_image_space (_image_space self);
     _base := _base self; _overlay := None; _tooltip := _tooltip self |}.

(** [painter.drawImage(self._rect, image)] *)
Definition draw_in_rect (rect : Z * Z * Z * Z) (image : QImage) : draw :=
  let '(x, y, w, h) := rect in DrawInRect x y w h image.

(** [ItemImage.paintEvent], on the button whose images it paints. *)
Definition ItemImage_paintEvent (self : ItemButton) : ItemButton :=
  let s := _image_space self in
  let q := image_widget s in
  let q := match _base self with
           | Some image => drawImage (draw_in_rect (_rect s) image) q
           | None => q
           end in
  let q := match _overlay self with
           | Some image => drawImage (draw_in_rect (_rect s) image) q
           | None => q
           end in
  {| frame := frame self; _image_space := {| image_widget := q; _rect := _rect s |};
     _base := _base self; _overlay := _overlay self; _tooltip := _tooltip self |}.

(** The calls a user of an [ItemButton] can make, and events it gets. *)
Inductive ItemButton_op :=
| SetItem (image : QImage)
| SetOverlay (image : QImage)
| SetItemOverlay (item_image overlay_image : QImage)
| SetItemFull (item_image overlay_image : QImage) (t : string)
| Clear
| ClearItem
| ClearOverlay
| SetTooltip (t : string)
| Enter (window_width : Z) (top_left : Z * Z)
| Leave.

Definition apply_op (o : ItemButton_op) (self : ItemButton) : ItemButton :=
  match o with
  | SetItem i => set_item i self
  | SetOverlay i => set_overlay i self
  | SetItemOverlay i o => set_item_overlay i o self
  | SetItemFull i o t => set_item_full i o t self
  | Clear => clear self
  | ClearItem => clear_item self
  | ClearOverlay => clear_overlay self
  | SetTooltip t => set_tooltip t self
  | Enter w p => enterEvent w p self
  | Leave => leaveEvent self
  end.

Definition apply_ops (ops : list ItemButton_op) (self : ItemButton) : ItemButton :=
  foldl (fun b o => apply_op o b) self ops.

(** The operations that end in [self._image_space.update()]. *)
Definition requests_repaint (o : ItemButton_op) : bool :=
  match o with
  | SetTooltip _ | Enter _ _ | Leave => false
  | _ => true
  end.

(** The label store of the examples: one tooltip label. *)
Definition one_label (name : string) : option QLabel :=
  if String.eqb name "tooltip" then
    Some {| text := ""; visible := false; fixedWidth := None; pos := (0, 0) |}
  else None.

Definition frame_of (c : call) : exc QWidget := Ok (fresh_widget 100 30).

(** [ItemButton(49, 64, '', tooltip)] *)
Definition call_with_tooltip : call :=
  {| positional := [AInt 49; AInt 64; AStr ""; AObj "tooltip"];
     keywords := [] |}.

(** *** [ThreadObject] and [exec_in_thread] *)

(** What a worker does that others can see: it calls its function (noted
    with the arguments of the call) and it emits signals. *)
Inductive thread_event :=
| Called (c : call)
| Emitted (signal_name : string).

Definition note (e : thread_event) : ST (list thread_event) unit :=
  fun t => (Ok tt, (t ++ [e])%list).

(** The worker: [_func] is what the function does when called, [_args]
    and [_kwargs] what the constructor was given. *)
Record ThreadObject := {
  _func : call -> ST (list thread_event) unit;
  _args : list arg;
  _kwargs : list (string * arg)
}.

(** [ThreadObject.__init__(func, *args, **kwargs)] *)
Definition ThreadObject_init (func : call -> ST (list thread_event) unit)
    (args : list arg) (kwargs : list (string * arg)) : ThreadObject :=
  {| _func := func; _args := args; _kwargs := kwargs |}.

(** The keywords of a call [f(..., k=v, **d)]: a key of [d] that repeats
    an explicit keyword is a [TypeError], raised before [f] is entered. *)
Definition call_keywords (explicit unpacked : list (string * arg))
  : exc (list (string * arg)) :=
  if existsb (fun kv => bool_decide (fst kv ∈ map fst explicit)) unpacked
  then Raise TypeError
  else Ok (explicit ++ unpacked)%list.

(** [ThreadObject.run(start_args)]; the worker passes itself as
    [threaded_worker]. *)
Definition run (self : ThreadObject) (start_args : list arg)
  : ST (list thread_event) unit :=
  kw ← lift (call_keywords [("threaded_worker", AObj "worker")] (_kwargs self));
  let c := {| positional := (_args self ++ start_args)%list; keywords := kw |} in
  note (Called c) ;;
  _func self c ;;
  note (Emitted "finished").

Inductive qt_signal :=
| worker_start | worker_result | worker_update_splash | worker_finished
| thread_started | thread_finished.

Inductive qt_slot :=
| callback (a : arg)
| worker_run | thread_quit | worker_deleteLater | thread_deleteLater.

(** Truth value of an argument in an [if]. *)
Definition arg_truthy (a : arg) : bool :=
  match a with
  | AInt n => negb (n =? 0)
  | AStr s => negb (String.eqb s "")
  | AObj _ => true
  end.

(** What [exec_in_thread] leaves behind: the worker, the connections in
    the order they were made, and the signal it returns, if any.  The
    thread is started in every case. *)
Record thread_setup := {
  worker : ThreadObject;
  connections : list (qt_signal * qt_slot);
  returned : option qt_signal
}.

(** The keyword-only parameters of [exec_in_thread]. *)
Definition exec_in_thread_keywords : list string :=
  ["result"; "update_splash"; "finished"; "start_later"].

(** [exec_in_thread(self, func, *args, result=None, update_splash=None,
    finished=None, start_later=False, **kwargs)], called as a method with
    [func] first: [c] holds what follows [func].  A keyword that is not
    given is [None]. *)
Definition exec_in_thread (func : call -> ST (list thread_event) unit) (c : call)
  : exc thread_setup :=
  if bool_decide ("self" ∈ map fst (keywords c))
     || bool_decide ("func" ∈ map fst (keywords c))
  then Raise TypeError
  else
    let result := dict_get "result" (keywords c) in
    let update_splash := dict_get "update_splash" (keywords c) in
    let finished := dict_get "finished" (keywords c) in
    let start_later :=
      match dict_get "start_later" (keywords c) with
      | Some a => arg_truthy a
      | None => false
      end in
    let kwargs :=
      filter (fun kv => fst kv ∉ exec_in_thread_keywords) (keywords c) in
    let w := ThreadObject_init func (positional c) kwargs in
    Ok {| worker := w;
          connections :=
           (match result with
            | Some f => [(worker_result, callback f)]
            | None => []
            end
            ++ match finished with
               | Some f => [(worker_finished, callback f)]
               | None => []
               end
            ++ match update_splash with
               | Some f => [(worker_update_splash, callback f)]
               | None => []
               end
            ++ [if start_later then (worker_start, worker_run)
                else (thread_started, worker_run)]
            ++ [(worker_finished, thread_quit);
                (worker_finished, worker_deleteLater);
                (thread_finished, thread_deleteLater)])%list;
          returned := if start_later then Some worker_start else None |}.

(** A function that reports one result and returns, and one that raises. *)
Definition reporting_func (c : call) : ST (list thread_event) unit :=
  note (Emitted "result").

Definition failing_func (c : call) : ST (list thread_event) unit :=
  lift (Raise KeyError).

Definition call_with_finished : call :=
  {| positional := [AInt 1];
     keywords := [("finished", AObj "on_done"); ("title", AStr "ships")] |}.

End Widgets.

(** ** [src/app.py]: the application shell *)

Module App.
Import Py.

(** *** Settings *)

Section Shell.

(** [os.path.abspath]. *)
Variable abspath : string -> string.

(** The values a [QSettings] object stores, how [value(key, type=float)]
    converts one ([toFloat]), and the JSON documents written to disk. *)
Context {qvariant json : Type}.
Variable toFloat : qvariant -> Q.

(** A [QSettings] object in INI format: the file behind it and the keys it
    holds.  The INI files on disk are a map from paths to their keys. *)
Record QSettings := {
  fileName : string;
  store : gmap string qvariant
}.

(** [QSettings(path, QSettings.Format.IniFormat)]: the keys of the file,
    none when there is no file. *)
Definition QSettings_open (disk : gmap string (gmap string qvariant)) (path : string) : QSettings :=
  {| fileName := path; store := default ∅ (disk !! path) |}.

(** [settings.value(key, None)]: [None] exactly when the key is not set. *)
Definition value (s : QSettings) (key : string) : option qvariant :=
  store s !! key.

(** [settings.value(key, type=float)]: an unset key converts to [0.0]. *)
Definition value_float (s : QSettings) (key : string) : Q :=
  from_option toFloat 0%Q (store s !! key).

Definition setValue (key : string) (v : qvariant) (s : QSettings) : QSettings :=
  {| fileName := fileName s; store := <[key := v]> (store s) |}.

(** The object's keys written back to its file. *)
Definition sync (s : QSettings) (disk : gmap string (gmap string qvariant)) : gmap string (gmap string qvariant) :=
  <[fileName s := store s]> disk.

(** *** Configuration

    [config] is the dict [main.py] passes in; its keys are fixed, so it is
    a record.  [ui_scale] is not there before [init_config]. *)
Record config := {
  settings_path : string;
  config_folder_path : string;
  config_subfolders : gmap string string;
  autosave_filename : string;
  default_settings : gmap string qvariant;
  config_box_width : Q;
  config_box_height : Q;
  ui_scale : option Q
}.

(** The attributes of a [SETS] object that startup and shutdown use. *)
Record SETS := {
  app_dir : string;
  config_ : config;
  settings : QSettings;
  box_width : option Q;
  box_height : option Q;
  build : json
}.

(** One step of the loop in [init_settings]. *)
Definition init_setting (setting : string) (v : qvariant) (s : QSettings)
  : QSettings :=
  match value s setting with
  | None => setValue setting v s
  | Some _ => s
  end.

(** [SETS.init_settings] *)
Definition init_settings (disk : gmap string (gmap string qvariant)) (self : SETS) : SETS :=
  let settings_path := abspath (app_dir self ++ settings_path (config_ self)) in
  let s := QSettings_open disk settings_path in
  {| app_dir := app_dir self; config_ := config_ self;
     settings := map_fold init_setting s (default_settings (config_ self));
     box_width := box_width self; box_height := box_height self;
     build := build self |}.

(** [SETS.init_config] *)
Definition init_config (self : SETS) : SETS :=
  let c := config_ self in
  let config_folder := abspath (app_dir self ++ config_folder_path c) in
  let scale := value_float (settings self) "ui_scale" in
  {| app_dir := app_dir self;
     config_ :=
       {| settings_path := settings_path c;
          config_folder_path := config_folder;
          config_subfolders := (fun path => config_folder ++ path) <$> config_subfolders c;
          autosave_filename := config_folder ++ "\" ++ autosave_filename c;
          default_settings := default_settings c;
          config_box_width := config_box_width c;
          config_box_height := config_box_height c;
          ui_scale := Some scale |};
     settings := settings self;
     box_width := Some (config_box_width c * scale * (8 # 10))%Q;
     box_height := Some (config_box_height c * scale * (8 # 10))%Q;
     build := build self |}.

(** *** The file system and the I/O helpers *)

Record filesystem := {
  dirs : gset string;
  files : gmap string json
}.

(** [os.path.exists]: true of a directory as well as of a file. *)
Definition path_exists (p : string) (fs : filesystem) : bool :=
  bool_decide (p ∈ dirs fs) || bool_decide (is_Some (files fs !! p)).

(** What happens outside the object: the disk, the settings object's keys,
    and the order of the writes and of the answer to the close event. *)
Inductive effect :=
| SettingWritten (key : string) (v : qvariant)
| JsonStored (path : string) (data : json)
| FolderCreated (path : string)
| CloseAccepted.

Record world := {
  fs : filesystem;
  qsettings : QSettings;
  close_accepted : bool;
  log : list effect
}.

(** The directories above a path, by the rule of the operating system. *)
Variable ancestors : string -> gset string.

(** Modelled from the spec: [iofunc.create_folder] is not among the sources.
    Spec 4.3: given a path, ensure the directory exists, creating parent
    directories as needed; idempotent; no error if already present. *)
Definition create_folder (path : string) : ST world unit :=
  fun w =>
    (Ok tt,
     {| fs := {| dirs := {[path]} ∪ ancestors path ∪ dirs (fs w);
                 files := files (fs w) |};
        qsettings := qsettings w; close_accepted := close_accepted w;
        log := log w ++ [FolderCreated path] |}).

(** Modelled from the spec: [iofunc.store_json] is not among the sources.
    Spec 4.3: given a structure and a destination path, write it as
    formatted JSON, overwriting any existing file. *)
Definition store_json (data : json) (path : string) : ST world unit :=
  fun w =>
    (Ok tt,
     {| fs := {| dirs := dirs (fs w); files := <[path := data]> (files (fs w)) |};
        qsettings := qsettings w; close_accepted := close_accepted w;
        log := log w ++ [JsonStored path data] |}).

(** Modelled from the spec: [datafunctions.empty_build] is not among the
    sources.  Spec 4.8: returns a build record matching the fixed-shape
    schema, all slots set to their absent-value sentinel. *)
Variable empty_build : json.

(** Modelled from the spec: [datafunctions.autosave] is not among the
    sources.  Spec 4.8: serializes the current live build record to the
    configured autosave file path. *)
Definition autosave (self : SETS) : ST world unit :=
  store_json (build self) (autosave_filename (config_ self)).

(** [self.config['config_subfolders'][name]] *)
Definition subfolder (self : SETS) (name : string) : ST world string :=
  match config_subfolders (config_ self) !! name with
  | Some path => mret path
  | None => lift (Raise KeyError)
  end.

(** [SETS.init_environment], lines 137-142: the six folders. *)
Definition create_folders (self : SETS) : ST world unit :=
  create_folder (config_folder_path (config_ self)) ;;
  d ← subfolder self "library"; create_folder d ;;
  d ← subfolder self "cache"; create_folder d ;;
  d ← subfolder self "cargo"; create_folder d ;;
  d ← subfolder self "images"; create_folder d ;;
  d ← subfolder self "ship_images"; create_folder d.

(** [os.path.exists(path)] on the disk as it is now. *)
Definition os_path_exists (path : string) : ST world bool :=
  fun w => (Ok (path_exists path (fs w)), w).

(** [SETS.init_environment] *)
Definition init_environment (self : SETS) : ST world unit :=
  create_folders self ;;
  found ← os_path_exists (autosave_filename (config_ self));
  if negb found
  then store_json empty_build (autosave_filename (config_ self))
  else mret tt.

(** [self.settings.setValue(key, v)] on the live settings object. *)
Definition settings_setValue (key : string) (v : qvariant) : ST world unit :=
  fun w =>
    (Ok tt,
     {| fs := fs w; qsettings := setValue key v (qsettings w);
        close_accepted := close_accepted w;
        log := log w ++ [SettingWritten key v] |}).

(** [event.accept()] on the close event. *)
Definition event_accept : ST world unit :=
  fun w =>
    (Ok tt,
     {| fs := fs w; qsettings := qsettings w; close_accepted := true;
        log := log w ++ [CloseAccepted] |}).

(** [SETS.main_window_close_callback]; [window_geometry] is what
    [self.window.saveGeometry()] returned. *)
Definition main_window_close_callback (self : SETS) (window_geometry : qvariant)
  : ST world unit :=
  settings_setValue "geometry" window_geometry ;;
  autosave self ;;
  event_accept.

End Shell.

Arguments QSettings : clear implicits.
Arguments config : clear implicits.
Arguments SETS : clear implicits.
Arguments filesystem : clear implicits.
Arguments effect : clear implicits.
Arguments world : clear implicits.

(** *** Where a path lies

    A path is split at its last separator into the directory and the name
    in it.  Under POSIX rules the separator is [/]; under Windows rules
    both [\] and [/] separate. *)

Definition posix_sep (c : ascii) : bool := Ascii.eqb c "/".
Definition windows_sep (c : ascii) : bool := Ascii.eqb c "\" || Ascii.eqb c "/".

Fixpoint has_sep (sep : ascii -> bool) (s : string) : bool :=
  match s with
  | EmptyString => false
  | String c s' => sep c || has_sep sep s'
  end.

(** [split_path sep p = Some (dir, name)]: [p] is [dir], one separator,
    and [name], which holds no separator; [None] when [p] has none. *)
Fixpoint split_path (sep : ascii -> bool) (p : string) : option (string * string) :=
  match p with
  | EmptyString => None
  | String c p' =>
      match split_path sep p' with
      | Some (d, n) => Some (String c d, n)
      | None => if sep c then Some (EmptyString, p') else None
      end
  end.

(** *** A shell to run startup and shutdown on *)

Inductive setting_value :=
| VFloat (q : Q)
| VBytes (b : string).

Definition setting_toFloat (v : setting_value) : Q :=
  match v with
  | VFloat q => q
  | VBytes _ => 0%Q
  end.

(** Paths that are absolute and normal already. *)
Definition abspath_id (path : string) : string := path.

Definition no_ancestors (path : string) : gset string := ∅.

Definition example_config : config setting_value :=
  {| settings_path := "/.config/settings.ini";
     config_folder_path := "/.config";
     config_subfolders :=
       {[ "library" := "/library"; "cache" := "/cache"; "cargo" := "/cargo";
          "images" := "/images"; "ship_images" := "/ship_images" ]};
     autosave_filename := ".autosave.json";
     default_settings :=
       {[ "ui_scale" := VFloat 1; "geometry" := VBytes "" ]};
     config_box_width := 49;
     config_box_height := 64;
     ui_scale := None |}.

Definition example_shell : SETS setting_value string :=
  {| app_dir := "/opt/sets";
     config_ := example_config;
     settings := QSettings_open (∅ : gmap string (gmap string setting_value)) "";
     box_width := None;
     box_height := None;
     build := "{}" |}.

(** The example shell after [init_config]. *)
Definition configured_shell : SETS setting_value string :=
  init_config abspath_id setting_toFloat example_shell.

(** The shell after a run in which the user chose a scale of 1.25. *)
Definition scaled_shell : SETS setting_value string :=
  {| app_dir := "/opt/sets";
     config_ := example_config;
     settings :=
       {| fileName := "/opt/sets/.config/settings.ini";
          store := {[ "ui_scale" := VFloat (5 # 4); "geometry" := VBytes "" ]} |};
     box_width := None;
     box_height := None;
     build := "{}" |}.

Definition empty_world : world setting_value string :=
  {| fs := {| dirs := ∅; files := ∅ |};
     qsettings := QSettings_open (∅ : gmap string (gmap string setting_value)) "";
     close_accepted := false;
     log := [] |}.


(** *** The main window *)

Section Window.

Context {qvariant json : Type}.

(** Truth value of a stored value in an [if]. *)
Variable truthy : qvariant -> bool.

(** [SETS.create_main_window], lines 173-174: the geometry handed to
    [window.restoreGeometry], if any.  [settings.value('geometry')] is
    [None], which is false, when the key is not set. *)
Definition restored_geometry (self : SETS qvariant json) : option qvariant :=
  match value (settings self) "geometry" with
  | Some g => if truthy g then Some g else None
  | None => None
  end.

End Window.

(** Top-level windows as [hide_tooltips] sees them. *)
Inductive WindowType := Widget | Window | Dialog | Popup | Tool | ToolTip.

Definition WindowType_eqb (a b : WindowType) : bool :=
  match a, b with
  | Widget, Widget | Window, Window | Dialog, Dialog
  | Popup, Popup | Tool, Tool | ToolTip, ToolTip => true
  | _, _ => false
  end.

Record QWindow := {
  type : WindowType;
  isVisible : bool
}.

Definition hide (window : QWindow) : QWindow :=
  {| type := type window; isVisible := false |}.

(** [SETS.hide_tooltips]; [isActiveWindow] is the answer of the main
    window, [topLevelWindows] the windows of the application. *)
Definition hide_tooltips (isActiveWindow : bool) (topLevelWindows : list QWindow)
  : list QWindow :=
  if negb isActiveWindow
  then map (fun window =>
              if WindowType_eqb (type window) ToolTip then hide window else window)
           topLevelWindows
  else topLevelWindows.

(** A stored byte array is true when it is not empty, a number when it is
    not zero. *)
Definition setting_truthy (v : setting_value) : bool :=
  match v with
  | VFloat q => negb (Qeq_bool q 0)
  | VBytes b => negb (String.eqb b "")
  end.

(** The example shell after [init_settings] on an empty disk. *)
Definition started_shell : SETS setting_value string :=
  init_settings abspath_id (∅ : gmap string (gmap string setting_value))
    example_shell.

(** The world the started shell lives in. *)
Definition started_world : world setting_value string :=
  {| fs := {| dirs := ∅; files := ∅ |};
     qsettings := settings started_shell;
     close_accepted := false;
     log := [] |}.

(** A configuration whose subfolders lack [cargo]. *)
Definition shell_without_cargo : SETS setting_value string :=
  {| app_dir := "/opt/sets";
     config_ :=
       {| settings_path := "/.config/settings.ini";
          config_folder_path := "/opt/sets/.config";
          config_subfolders :=
            {[ "library" := "/opt/sets/.config/library";
               "cache" := "/opt/sets/.config/cache" ]};
          autosave_filename := "/opt/sets/.config\.autosave.json";
          default_settings := ∅;
          config_box_width := 49;
          config_box_height := 64;
          ui_scale := None |};
     settings := QSettings_open (∅ : gmap string (gmap string setting_value)) "";
     box_width := None;
     box_height := None;
     build := "{}" |}.

Definition example_windows : list QWindow :=
  [ {| type := Window; isVisible := true |};
    {| type := ToolTip; isVisible := true |};
    {| type := Dialog; isVisible := true |};
    {| type := ToolTip; isVisible := false |} ].

(** A disk on which an earlier run left its autosave file. *)
Definition used_world : world setting_value string :=
  {| fs := {| dirs := {[ "/opt/sets/.config" ]};
              files := {[ "/opt/sets/.config\.autosave.json" := "{saved}" ]} |};
     qsettings := settings started_shell;
     close_accepted := false;
     log := [] |}.

End App.

(** * Theorems *)
Module SnapshotFacts.
Import Py Snapshot.

(** *** Stepping through a script *)

Lemma get_put_eq x v s : get (put x v s) x = Some v.
Proof. apply lookup_insert_eq. Qed.

Lemma get_put_ne x y v s : x <> y -> get (put x v s) y = get s y.
Proof. intros. by apply lookup_insert_ne. Qed.

Lemma get_emit l s x : get (emit l s) x = get s x.
Proof. reflexivity. Qed.

Lemma state_ext (s1 s2 : state) :
  stdout s1 = stdout s2 -> (forall x, get s1 x = get s2 x) -> s1 = s2.
Proof.
  destruct s1 as [g1 o1], s2 as [g2 o2]. unfold get. simpl.
  intros -> E. f_equal. by apply map_eq.
Qed.

Lemma put_put x v w s : put x v (put x w s) = put x v s.
Proof.
  apply state_ext; [reflexivity|]. intros y.
  destruct (decide (x = y)) as [->|Hne].
  - by rewrite !get_put_eq.
  - by rewrite !get_put_ne.
Qed.

Lemma bind_run {A B} (m : M A) (f : A -> M B) s a s' :
  m s = (Ok a, s') -> (m ≫= f) s = f a s'.
Proof. intros E. unfold mbind, ST_mbind, ST_bind. by rewrite E. Qed.

Lemma bind_assign {B} x v (f : unit -> M B) s :
  (assign x v ≫= f) s = f tt (put x v s).
Proof. reflexivity. Qed.

Lemma assign_run x v s : assign x v s = (Ok tt, put x v s).
Proof. reflexivity. Qed.

Lemma bind_print {B} l (f : unit -> M B) s :
  (print l ≫= f) s = f tt (emit l s).
Proof. reflexivity. Qed.

Lemma print_run l s : print l s = (Ok tt, emit l s).
Proof. reflexivity. Qed.

Lemma bind_lift {A B} (m : exc A) (f : A -> M B) s :
  (lift m ≫= f) s = match m with Ok a => f a s | Raise e => (Raise e, s) end.
Proof. by destruct m. Qed.

Lemma bind_var {B} x v (f : pyval -> M B) s :
  get s x = Some v -> (var x ≫= f) s = f v s.
Proof.
  unfold get. intros E. unfold mbind, ST_mbind, ST_bind, var. by rewrite E.
Qed.

Lemma bind_mret {A B} (a : A) (f : A -> M B) s : (mret a ≫= f) s = f a s.
Proof. reflexivity. Qed.

Lemma mret_run {A} (a : A) (s : state) : (mret a : M A) s = (Ok a, s).
Proof. reflexivity. Qed.

Lemma bind_assoc {A B C} (m : M A) (g : A -> M B) (f : B -> M C) s :
  ((m ≫= g) ≫= f) s = (m ≫= fun a => g a ≫= f) s.
Proof.
  unfold mbind, ST_mbind, ST_bind. by destruct (m s) as [[a|e] s'].
Qed.

Ltac lookup :=
  repeat first
    [ rewrite get_emit
    | rewrite get_put_eq
    | rewrite get_put_ne by (discriminate || congruence) ];
  first [ reflexivity | eassumption ].

Ltac step :=
  first
    [ rewrite bind_assoc
    | rewrite bind_assign
    | rewrite assign_run
    | rewrite bind_mret
    | rewrite bind_print
    | rewrite print_run
    | rewrite mret_run
    | rewrite bind_lift
    | erewrite bind_var by lookup ].

Ltac eval_test :=
  match goal with
  | |- context [py_gt ?a ?b] =>
      let r := eval vm_compute in (py_gt a b) in
      change (py_gt a b) with r
  end.

Ltac steps :=
  repeat first
    [ step
    | eval_test
    | progress cbn [py_replace py_div py_eq py_add Z.eqb for_ map fst]
    | progress lazy iota ].

(** *** The blocks, one by one *)

Lemma facts_block_run (h : host) (s : state) :
  facts_block h s =
    (Ok tt, put "release" (PStr (platform_release h))
              (put "system" (PStr (platform_system h))
                 (put "python_version" (python_version_of h) s))).
Proof.
  unfold facts_block, python_version_of.
  steps. by rewrite !put_put.
Qed.

(** The comparison [release == 10] is between a [str] and an [int], so the
    override of [release] is never reached. *)
Lemma release_block_run (h : host) (s : state) (ps pr : string) :
  get s "system" = Some (PStr ps) ->
  get s "release" = Some (PStr pr) ->
  release_block h s = (Ok tt, put "build" (build_of h) s).
Proof.
  intros Hs Hr. unfold release_block, try_except, build_of.
  step. destruct (getwindowsversion_build h) as [b|e]; [|reflexivity].
  steps. destruct (String.eqb ps "Windows"); steps; reflexivity.
Qed.

Lemma tkinter_block_run (h : host) (s : state) :
  tkinter_block h s =
    (Ok tt, put "factor" (factor_of h)
              (put "dpi" (dpi_of h)
                 (put "tk_screen_geometry" (tk_screen_geometry_of h)
                    (put "tkinter_version" (tkinter_version_of h) s)))).
Proof.
  unfold tkinter_block, try_except, factor_of, dpi_of, tk_screen_geometry_of,
    tkinter_version_of, tkinter_probe.
  destruct (import_tkinter h) as [[]|?]; [|reflexivity].
  destruct (tcl_patchlevel h) as [v|?]; [|by steps].
  destruct (tk_Tk h) as [[]|?]; [|steps; by rewrite !put_put].
  destruct (winfo_screenwidth h) as [sw|?]; [|steps; by rewrite !put_put].
  destruct (winfo_screenheight h) as [sh|?]; [|steps; by rewrite !put_put].
  destruct (winfo_fpixels_1i h) as [px|?]; [by steps|].
  steps. apply (f_equal (pair (Ok tt))), state_ext; [reflexivity|].
  intros x.
  destruct (decide (x = "factor")) as [->|?]; [by lookup|].
  destruct (decide (x = "dpi")) as [->|?]; [by lookup|].
  destruct (decide (x = "tk_screen_geometry")) as [->|?]; [by lookup|].
  destruct (decide (x = "tkinter_version")) as [->|?]; [by lookup|].
  by rewrite !get_put_ne by done.
Qed.

Lemma distribution_block_run (h : host) (s : state) :
  distribution_block h s = (Ok tt, put "distribution" (distribution_of h) s).
Proof.
  unfold distribution_block, try_except, distribution_of.
  step. by destruct (distribution_probe h).
Qed.

Lemma version_block_run (x : string) (probe : exc string) (s : state) :
  version_block x probe s = (Ok tt, put x (version_of probe) s).
Proof.
  unfold version_block, try_except, version_of.
  step. by destruct probe.
Qed.

Lemma os_text_block_run (h : host) (s : state) :
  get s "system" = Some (PStr (platform_system h)) ->
  get s "release" = Some (PStr (platform_release h)) ->
  get s "build" = Some (build_of h) ->
  get s "distribution" = Some (distribution_of h) ->
  os_text_block h s = (Ok tt, put "os_text" (PStr (os_text_of h)) s).
Proof.
  intros Hs Hr Hb Hd. unfold os_text_block, os_text_of.
  steps.
  destruct (py_truthy (build_of h));
    destruct (py_truthy (distribution_of h)) eqn:Ed;
    steps; rewrite Ed; steps; by rewrite ?put_put.
Qed.

Lemma report_block_run (h : host) (s : state)
    (python_version os_text geometry dpi factor tkv pilv npv : pyval) :
  get s "python_version" = Some python_version ->
  get s "os_text" = Some os_text ->
  get s "tk_screen_geometry" = Some geometry ->
  get s "dpi" = Some dpi ->
  get s "factor" = Some factor ->
  get s "tkinter_version" = Some tkv ->
  get s "PIL_version" = Some pilv ->
  get s "numpy_version" = Some npv ->
  exists s',
    report_block h s = (Ok tt, s') /\
    stdout s' = (stdout s ++ report_rows h python_version os_text geometry
                               dpi factor tkv pilv npv)%list /\
    forall x, x <> "min_title_width" -> x <> "type" -> x <> "modules_text" ->
              get s' x = get s x.
Proof.
  intros H1 H2 H3 H4 H5 H6 H7 H8. unfold report_block.
  eexists. split; [|split].
  - steps. reflexivity.
  - cbn [stdout emit put]. rewrite <- !app_assoc. reflexivity.
  - intros x ? ? ?. by lookup.
Qed.

(** *** The whole script *)

Lemma script_run (h : host) :
  exists s,
    run h = (Ok tt, s) /\
    stdout s = report_of h /\
    get s "release" = Some (PStr (platform_release h)) /\
    get s "build" = Some (build_of h) /\
    get s "tkinter_version" = Some (tkinter_version_of h) /\
    get s "tk_screen_geometry" = Some (tk_screen_geometry_of h) /\
    get s "dpi" = Some (dpi_of h) /\
    get s "factor" = Some (factor_of h) /\
    get s "distribution" = Some (distribution_of h) /\
    get s "PIL_version" = Some (version_of (PIL_version_attr h)) /\
    get s "numpy_version" = Some (version_of (numpy_version_attr h)).
Proof.
  unfold run, script.
  erewrite bind_run by apply facts_block_run.
  erewrite bind_run by (eapply release_block_run; lookup).
  erewrite bind_run by apply tkinter_block_run.
  erewrite bind_run by apply distribution_block_run.
  erewrite bind_run by (apply os_text_block_run; lookup).
  erewrite bind_run by apply version_block_run.
  erewrite bind_run by apply version_block_run.
  match goal with
  | |- context [report_block h ?s0] =>
      destruct (report_block_run h s0
                  (python_version_of h) (PStr (os_text_of h))
                  (tk_screen_geometry_of h) (dpi_of h) (factor_of h)
                  (tkinter_version_of h) (version_of (PIL_version_attr h))
                  (version_of (numpy_version_attr h)))
        as (s' & Hrun & Hout & Hframe); [lookup ..|]
  end.
  exists s'. split; [exact Hrun|]. split; [exact Hout|].
  repeat split; (rewrite Hframe by discriminate); lookup.
Qed.

(** The override of [release] is dead code: whatever the host answers, the
    script ends with [release] as [platform.release()] gave it. *)
Lemma release_never_overridden (h : host) :
  final h "release" = Some (PStr (platform_release h)).
Proof.
  destruct (script_run h) as (s & Hrun & _ & Hrel & _).
  unfold final. rewrite Hrun. exact Hrel.
Qed.

(** C1: on a host of family "Windows" whose release is "10" and whose
    build is 22000, the script ends with release "10", not "11", and the
    report says so: the claimed override does not happen. *)
Theorem release_at_build_22000 :
  final windows11_host "release" = Some (PStr "10") /\
  stdout (snd (run windows11_host)) !! 1%nat =
    Some "         OS: Windows 10 (22000)".
Proof. split; vm_compute; reflexivity. Qed.

(** C4, as the specification words it, fails on a machine without a
    display: the screen geometry becomes ['fail'], not the empty string,
    and the Tcl version that was read successfully is replaced by ['fail']
    as well. *)
Lemma display_failure_is_not_empty :
  ~ display_probes_empty_on_failure headless_host /\
  tcl_patchlevel headless_host = Ok "8.6.13" /\
  final headless_host "tkinter_version" = Some (PStr "fail") /\
  final headless_host "tk_screen_geometry" = Some (PStr "fail").
Proof.
  split; [|repeat split; vm_compute; reflexivity].
  intros H. destruct (H eq_refl) as [Hg _].
  vm_compute in Hg. discriminate Hg.
Qed.

(** C4, amended: whatever the probes do, the script runs to its end and
    prints its four lines; the Pillow and numpy versions are ['fail']
    when their probe raises; the build and the distribution are the empty
    string when theirs raises; and when any call of the tkinter block
    raises, the tkinter version and the screen geometry are ['fail'] and
    the DPI and the factor are the empty string. *)
Theorem probes_fault_tolerant (h : host) :
  exists s,
    run h = (Ok tt, s) /\
    stdout s = report_of h /\
    length (stdout s) = 4%nat /\
    get s "PIL_version" = Some (PStr (or_else (PIL_version_attr h) "fail")) /\
    get s "numpy_version" = Some (PStr (or_else (numpy_version_attr h) "fail")) /\
    get s "distribution" = Some (PStr (or_else (distribution_probe h) "")) /\
    get s "build" =
      Some (match getwindowsversion_build h with
            | Ok b => PInt b
            | Raise _ => PStr ""
            end) /\
    match tkinter_probe h with
    | Ok (v, sw, sh, px) =>
        get s "tkinter_version" = Some (PStr v) /\
        get s "tk_screen_geometry" =
          Some (PStr (format h [Arg (PInt sw); Lit "x"; Arg (PInt sh)])) /\
        get s "dpi" = Some (PFloat (py_round0 px)) /\
        get s "factor" = Some (PFloat (py_round0 px / inject_Z 96)%Q)
    | Raise _ =>
        get s "tkinter_version" = Some (PStr "fail") /\
        get s "tk_screen_geometry" = Some (PStr "fail") /\
        get s "dpi" = Some (PStr "") /\
        get s "factor" = Some (PStr "")
    end.
Proof.
  destruct (script_run h)
    as (s & Hrun & Hout & _ & Hb & Hv & Hg & Hd & Hf & Hdist & Hpil & Hnp).
  exists s. split; [exact Hrun|]. split; [exact Hout|].
  split; [by rewrite Hout|].
  split; [exact Hpil|]. split; [exact Hnp|]. split; [exact Hdist|].
  split; [exact Hb|].
  unfold tkinter_version_of, tk_screen_geometry_of, dpi_of, factor_of in *.
  destruct (tkinter_probe h) as [[[[v sw] sh] px]|e]; auto.
Qed.


(** *** More about the outcome *)

(** The values of the plain facts when the script ends. *)
Lemma script_run_facts (h : host) :
  exists s,
    run h = (Ok tt, s) /\
    get s "python_version" = Some (python_version_of h) /\
    get s "system" = Some (PStr (platform_system h)) /\
    get s "os_text" = Some (PStr (os_text_of h)).
Proof.
  unfold run, script.
  erewrite bind_run by apply facts_block_run.
  erewrite bind_run by (eapply release_block_run; lookup).
  erewrite bind_run by apply tkinter_block_run.
  erewrite bind_run by apply distribution_block_run.
  erewrite bind_run by (apply os_text_block_run; lookup).
  erewrite bind_run by apply version_block_run.
  erewrite bind_run by apply version_block_run.
  match goal with
  | |- context [report_block h ?s0] =>
      destruct (report_block_run h s0
                  (python_version_of h) (PStr (os_text_of h))
                  (tk_screen_geometry_of h) (dpi_of h) (factor_of h)
                  (tkinter_version_of h) (version_of (PIL_version_attr h))
                  (version_of (numpy_version_attr h)))
        as (s' & Hrun & Hout & Hframe); [lookup ..|]
  end.
  exists s'. split; [exact Hrun|].
  repeat split; (rewrite Hframe by discriminate); lookup.
Qed.

Lemma remove_char_filter (c : ascii) (s : string) :
  list_ascii_of_string (remove_char c s) =
    filter (fun a => a <> c) (list_ascii_of_string s).
Proof.
  induction s as [|a s IH]; [reflexivity|]. cbn [remove_char list_ascii_of_string].
  rewrite filter_cons. destruct (Ascii.eqb_spec a c) as [->|Hne].
  - rewrite decide_False by (intros H; by apply H). exact IH.
  - rewrite decide_True by exact Hne. cbn. by rewrite IH.
Qed.

(** The version string of the report is [sys.version] with every carriage
    return and line feed deleted and every other character kept, in
    order. *)
Theorem python_version_one_line (h : host) :
  exists v,
    final h "python_version" = Some (PStr v) /\
    list_ascii_of_string v =
      filter (fun a => a <> CR /\ a <> LF) (list_ascii_of_string (sys_version h)) /\
    (CR ∉ list_ascii_of_string v) /\ (LF ∉ list_ascii_of_string v).
Proof.
  destruct (script_run_facts h) as (s & Hrun & Hv & _).
  exists (remove_char LF (remove_char CR (sys_version h))).
  assert (E : list_ascii_of_string (remove_char LF (remove_char CR (sys_version h)))
              = filter (fun a => a <> CR /\ a <> LF)
                  (list_ascii_of_string (sys_version h))).
  { rewrite !remove_char_filter.
    induction (list_ascii_of_string (sys_version h)) as [|a l IH];
      [reflexivity|].
    rewrite !filter_cons.
    destruct (decide (a <> CR)) as [H1|H1].
    - rewrite filter_cons. destruct (decide (a <> LF)) as [H2|H2].
      + rewrite decide_True by done. by rewrite IH.
      + rewrite decide_False by tauto. exact IH.
    - rewrite decide_False by tauto. exact IH. }
  split; [unfold final; rewrite Hrun; exact Hv|].
  split; [exact E|].
  rewrite E. split; intros Hin; apply list_elem_of_filter in Hin; tauto.
Qed.

(** *** The distribution *)

Lemma row_cells (row : list string) :
  (2 <= length row)%nat ->
  exists k v rest, row = k :: v :: rest.
Proof.
  destruct row as [|k [|v rest]]; cbn; try lia. intros _. by exists k, v, rest.
Qed.

Lemma read_rows_short (rows : list (list string)) (d : gmap string string) :
  Exists (fun row => (length row < 2)%nat) rows ->
  read_rows rows d = Raise IndexError.
Proof.
  intros Hex. revert d. induction rows as [|row rows IH]; intros d.
  - by apply Exists_nil in Hex.
  - cbn [read_rows]. destruct row as [|k [|v rest]]; try reflexivity.
    apply Exists_cons in Hex as [Hrow|Hrows]; [cbn in Hrow; lia|].
    cbn. by apply IH.
Qed.

Lemma read_rows_long (rows : list (list string)) (d : gmap string string) :
  Forall (fun row => (2 <= length row)%nat) rows ->
  exists d',
    read_rows rows d = Ok d' /\
    forall k, d' !! k = match last_value k rows with
                        | Some v => Some v
                        | None => d !! k
                        end.
Proof.
  intros Hall. revert d. induction Hall as [|row rows Hrow _ IH]; intros d.
  - exists d. by split.
  - destruct (row_cells row Hrow) as (k & v & rest & ->).
    destruct (IH (<[k := v]> d)) as (d' & Hrun & Hd').
    exists d'. split; [exact Hrun|]. intros k0. rewrite Hd'.
    cbn [last_value]. destruct (last_value k0 rows); [reflexivity|].
    destruct (String.eqb_spec k k0) as [->|Hne].
    + by rewrite lookup_insert_eq.
    + by rewrite lookup_insert_ne.
Qed.

Lemma final_distribution (h : host) :
  final h "distribution" = Some (distribution_of h).
Proof.
  destruct (script_run h) as (s & Hrun & _ & _ & _ & _ & _ & _ & _ & Hd & _).
  unfold final. rewrite Hrun. exact Hd.
Qed.

Lemma string_app_nil_r (s : string) : s +:+ "" = s.
Proof.
  induction s as [|a s IH]; [reflexivity|].
  change (String a (s +:+ "") = String a s). by rewrite IH.
Qed.

(** When every row of [/etc/os-release] has at least two cells, the
    distribution is the value of the last [NAME] row, a space, and the
    value of the last [VERSION] row. *)
Theorem distribution_name_version (h : host) (rows : list (list string))
    (name version : string) :
  os_release_rows h = Ok rows ->
  Forall (fun row => (2 <= length row)%nat) rows ->
  last_value "NAME" rows = Some name ->
  last_value "VERSION" rows = Some version ->
  final h "distribution" = Some (PStr (name +:+ " " +:+ version)).
Proof.
  intros Hrows Hall Hn Hv. rewrite final_distribution.
  unfold distribution_of, distribution_probe. rewrite Hrows.
  cbn [mbind exc_mbind exc_bind].
  destruct (read_rows_long rows ∅ Hall) as (d & -> & Hd).
  cbn [mbind exc_mbind exc_bind]. unfold dict_item.
  rewrite !Hd, Hn, Hv. cbn. by rewrite string_app_nil_r.
Qed.

Lemma distribution_name_version_witness :
  final headless_host "distribution"
    = Some (PStr "Ubuntu 23.10 (Mantic Minotaur)").
Proof.
  apply (distribution_name_version headless_host
           [["NAME"; "Ubuntu"]; ["VERSION"; "23.10 (Mantic Minotaur)"];
            ["ID"; "ubuntu"]] "Ubuntu" "23.10 (Mantic Minotaur)");
    try reflexivity.
  repeat constructor.
Defined.

(** A row with fewer than two cells (a blank line, a line without [=])
    anywhere in the file, or no [NAME] row, or no [VERSION] row, leaves
    the distribution empty, whatever the other rows hold. *)
Theorem distribution_empty (h : host) (rows : list (list string)) :
  os_release_rows h = Ok rows ->
  Exists (fun row => (length row < 2)%nat) rows \/
  last_value "NAME" rows = None \/ last_value "VERSION" rows = None ->
  final h "distribution" = Some (PStr "").
Proof.
  intros Hrows Hbad. rewrite final_distribution.
  unfold distribution_of, distribution_probe. rewrite Hrows.
  cbn [mbind exc_mbind exc_bind].
  destruct (decide (Forall (fun row => (2 <= length row)%nat) rows))
    as [Hall|Hnot].
  - destruct (read_rows_long rows ∅ Hall) as (d & -> & Hd).
    cbn [mbind exc_mbind exc_bind]. unfold dict_item. rewrite !Hd.
    destruct Hbad as [Hex|[Hn|Hv]].
    + exfalso. apply Exists_exists in Hex as (row & Hin & Hlt).
      rewrite Forall_forall in Hall. specialize (Hall row Hin). lia.
    + rewrite Hn, lookup_empty. reflexivity.
    + rewrite Hv, lookup_empty. by destruct (last_value "NAME" rows).
  - rewrite read_rows_short; [reflexivity|].
    apply not_Forall_Exists in Hnot; [|intros row; apply _].
    eapply Exists_impl; [exact Hnot|]. cbn. intros row. lia.
Qed.

Lemma distribution_empty_witness :
  final
    {| sys_version := ""; platform_system := "Linux"; platform_release := "6";
       getwindowsversion_build := Raise AttributeError;
       import_tkinter := Raise ImportError; tcl_patchlevel := Raise ImportError;
       tk_Tk := Raise ImportError; winfo_screenwidth := Raise ImportError;
       winfo_screenheight := Raise ImportError;
       winfo_fpixels_1i := Raise ImportError;
       os_release_rows :=
         Ok [["NAME"; "Ubuntu"]; []; ["VERSION"; "23.10"]];
       PIL_version_attr := Raise ImportError;
       numpy_version_attr := Raise ImportError;
       repr_float := render_float |} "distribution"
    = Some (PStr "").
Proof.
  eapply distribution_empty; [reflexivity|].
  left. apply Exists_cons_tl, Exists_cons_hd. cbn. lia.
Defined.

(** *** The layout of the report *)


End SnapshotFacts.

Module WidgetsFacts.
Import Py Widgets.
Local Open Scope list_scope.

(** *** Arithmetic of the conversions *)

Lemma py_int_nonneg (q : Q) : (0 <= q)%Q -> py_int q = Qfloor q.
Proof.
  intros H. unfold py_int.
  destruct (Qle_bool 0 q) eqn:E; [reflexivity|].
  apply Qle_bool_iff in H. congruence.
Qed.

Lemma py_truediv_ok (a b : Z) :
  b <> 0 -> py_truediv a b = Ok (inject_Z a / inject_Z b)%Q.
Proof.
  intros Hb. unfold py_truediv.
  destruct (Z.eqb_spec b 0); [contradiction | reflexivity].
Qed.

Lemma inject_Z_pos (z : Z) : 0 < z -> (0 < inject_Z z)%Q.
Proof. intros H. unfold Qlt. simpl. lia. Qed.

Lemma inject_Z_nonneg (z : Z) : 0 <= z -> (0 <= inject_Z z)%Q.
Proof. intros H. unfold Qle. simpl. lia. Qed.

Lemma Qdiv_nonneg (a b : Q) : (0 <= a)%Q -> (0 < b)%Q -> (0 <= a / b)%Q.
Proof.
  intros Ha Hb. apply Qle_shift_div_l; [exact Hb|]. lra.
Qed.

(** *** Painting *)

Lemma nonnull_size (img : QImage) :
  isNull img = false -> 0 < img_width img /\ 0 < img_height img.
Proof.
  unfold isNull. intros H. apply orb_false_iff in H as [H1 H2].
  apply Z.leb_gt in H1, H2. lia.
Qed.

Lemma ImageLabel_paintEvent_run (self : ImageLabel) :
  isNull (p self) = false -> 0 < _w self -> 0 <= _h self ->
  0 <= width (widget self) ->
  ImageLabel_paintEvent self =
    Ok (with_widget
          (setFixedHeight (width (widget self) * _h self / _w self))
          (with_widget
             (drawImage
                (DrawInRect 0 0 (width (widget self))
                   (width (widget self) * _h self / _w self) (p self)))
             self)).
Proof.
  intros Hn Hw Hh Hc. unfold ImageLabel_paintEvent. rewrite Hn. cbn [negb].
  rewrite py_truediv_ok by lia. cbn [mbind exc_mbind exc_bind].
  rewrite py_int_nonneg, <- Zdiv_Qdiv; [reflexivity|].
  apply Qdiv_nonneg; [apply inject_Z_nonneg; nia | by apply inject_Z_pos].
Qed.

(** C5: a [ShipImage] holding a 400 x 200 picture, with that aspect
    ratio, in a box 300 wide and 100 high.  By the specification the
    picture is scaled by [min(300/400, 100/200) = 1/2] to 200 x 100 and
    drawn centred, at (50, 0), and the height is fixed to 100.  The paint
    event first runs the inherited painting, which draws the picture
    stretched to 300 x 150 and fixes the height to 150; only then does it
    read the box, so it scales by 3/4, draws the picture a second time,
    300 x 150 at (0, 0), and fixes the height to 150: the height of the
    box plays no part. *)
Theorem ShipImage_ignores_box_height :
  width (widget picture_label) = 300 /\ height (widget picture_label) = 100 /\
  spec_ShipImage_box 400 200 300 100 = (50, 0, 200, 100) /\
  exists self',
    ShipImage_paintEvent scale_in_proportion picture_label = Ok self' /\
    painted (widget self') =
      [DrawInRect 0 0 300 150 picture;
       DrawAt 0 0 {| img_width := 300; img_height := 150 |}] /\
    height (widget self') = 150.
Proof.
  split; [reflexivity|]. split; [reflexivity|].
  split; [vm_compute; reflexivity|].
  eexists. split; [vm_compute; reflexivity|]. split; reflexivity.
Qed.

Lemma ImageLabel_paintEvent_keeps_aspect (self self' : ImageLabel) :
  ImageLabel_paintEvent self = Ok self' ->
  _w self' = _w self /\ _h self' = _h self /\ p self' = p self.
Proof.
  unfold ImageLabel_paintEvent.
  destruct (negb (isNull (p self))); [|by intros [= <-]].
  destruct (py_truediv _ _) as [q|e]; [|discriminate].
  by intros [= <-].
Qed.

(** C9: a label built from a file that holds an image, with the default
    aspect ratio, stores 0 and 0 and raises [ZeroDivisionError] at its
    first paint event.  The constructor stores the aspect ratio it is
    given whatever the image is, and painting never changes it; only
    [set_image] copies the size of the new image into the aspect fields,
    asks for a repaint, and makes the next paint event succeed. *)
Theorem default_aspect_divides_by_zero
    (QImage_load : string -> QImage) (path : string) (base : QWidget) :
  path <> "" -> isNull (QImage_load path) = false ->
  let self := ImageLabel_init QImage_load path default_aspect_ratio base in
  _w self = 0 /\ _h self = 0 /\ p self = QImage_load path /\
  ImageLabel_paintEvent self = Raise ZeroDivisionError /\
  (forall ar : Z * Z,
     _w (ImageLabel_init QImage_load path ar base) = fst ar /\
     _h (ImageLabel_init QImage_load path ar base) = snd ar) /\
  (forall l l' : ImageLabel,
     ImageLabel_paintEvent l = Ok l' -> _w l' = _w l /\ _h l' = _h l) /\
  (forall img : QImage,
     _w (set_image img self) = img_width img /\
     _h (set_image img self) = img_height img /\
     p (set_image img self) = img /\
     updates (widget (set_image img self)) = S (updates (widget self))) /\
  (forall img : QImage,
     isNull img = false -> 0 <= width base ->
     is_ok (ImageLabel_paintEvent (set_image img self)) = true).
Proof.
  intros Hpath Hn self.
  assert (Hp : p self = QImage_load path).
  { unfold self, ImageLabel_init, default_aspect_ratio. cbn.
    destruct (String.eqb_spec path ""); [contradiction | reflexivity]. }
  split; [reflexivity|]. split; [reflexivity|]. split; [exact Hp|].
  split.
  { unfold ImageLabel_paintEvent. rewrite Hp, Hn. reflexivity. }
  split; [by intros [a b]|].
  split.
  { intros l l' Hl.
    destruct (ImageLabel_paintEvent_keeps_aspect l l' Hl) as (? & ? & _).
    by split. }
  split; [by intros img|].
  intros img Hi Hb.
  destruct (nonnull_size img Hi) as [Hw Hh].
  rewrite ImageLabel_paintEvent_run; [reflexivity | exact Hi | exact Hw | |].
  - cbn. lia.
  - exact Hb.
Qed.

Lemma default_aspect_divides_by_zero_witness :
  ImageLabel_paintEvent
    (ImageLabel_init load_picture "ship.png" default_aspect_ratio
       (fresh_widget 300 100)) = Raise ZeroDivisionError.
Proof.
  apply (default_aspect_divides_by_zero load_picture "ship.png"
           (fresh_widget 300 100)); [discriminate | reflexivity].
Defined.

(** *** Mouse release on an [ItemButton] *)

Lemma Qltb_lt (a b : Q) : Qltb a b = true <-> (a < b)%Q.
Proof.
  unfold Qltb. rewrite negb_true_iff, <- not_true_iff_false, Qle_bool_iff.
  split; [apply Qnot_le_lt | apply Qlt_not_le].
Qed.

(** Inside the rectangle the two buttons are told apart. *)
Lemma release_inside (w h : Z) (e : QMouseEvent) :
  inside w h e ->
  fst (mouseReleaseEvent w h e) =
    match button e with
    | LeftButton => [clicked]
    | RightButton => [rightclicked]
    | _ => []
    end.
Proof.
  intros (_ & Hx & _ & Hy). apply Qltb_lt in Hx, Hy.
  unfold mouseReleaseEvent. rewrite Hx, Hy.
  by destruct (button e).
Qed.

(** Beyond the right or the bottom edge nothing is emitted. *)
Lemma release_beyond_far_edge (w h : Z) (e : QMouseEvent) :
  (inject_Z w <= localPos_x e)%Q \/ (inject_Z h <= localPos_y e)%Q ->
  fst (mouseReleaseEvent w h e) = [].
Proof.
  intros Hout.
  assert (Qltb (localPos_x e) (inject_Z w) && Qltb (localPos_y e) (inject_Z h)
          = false) as Hf.
  { apply andb_false_iff.
    destruct Hout as [Hx|Hy]; [left|right];
      apply not_true_iff_false; rewrite Qltb_lt; by apply Qle_not_lt. }
  unfold mouseReleaseEvent.
  rewrite <- !andb_assoc, Hf, !andb_false_r. reflexivity.
Qed.

(** C2: a left-button release five pixels to the left of the button, so
    outside its bounds, still emits [clicked]: only the right and the
    bottom edge are checked. *)
Theorem release_left_of_button_clicks :
  ~ inside 49 64 release_left_of_button /\
  fst (mouseReleaseEvent 49 64 release_left_of_button) = [clicked].
Proof.
  split; [|reflexivity].
  intros (Hx & _). vm_compute in Hx. by apply Hx.
Qed.

(** *** The constructor of [ItemButton] *)

(** C8: the call of the superclass constructor gets [*args] followed by
    the names of the extra keyword arguments as positional arguments, and
    no keyword argument; that is the call a plain forwarding would make
    exactly when there is no extra keyword argument. *)
Theorem ItemButton_kwargs_become_positional (c : call) (b : bound) :
  bind_call ItemButton_params c = Ok b ->
  ItemButton_super_call c =
    Ok {| positional := args b ++ map (fun kv => AStr (fst kv)) (kwargs b);
          keywords := [] |} /\
  args b = drop 4 (positional c) /\
  kwargs b =
    filter (fun kv => is_param ItemButton_params (fst kv) = false) (keywords c) /\
  (kwargs b <> [] -> ItemButton_super_call c <> Ok (plain_super_call b)) /\
  (kwargs b = [] -> ItemButton_super_call c = Ok (plain_super_call b)).
Proof.
  intros Hb. unfold ItemButton_super_call. rewrite Hb.
  cbn [mbind exc_mbind exc_bind].
  split; [reflexivity|].
  unfold bind_call in Hb.
  destruct (bind_named _ _ _) as [n|e]; [|discriminate].
  cbn [mbind exc_mbind exc_bind] in Hb. injection Hb as <-. cbn [args kwargs].
  split; [reflexivity|]. split; [reflexivity|]. split.
  - intros Hne [= Hp Hk]. unfold plain_super_call in *. cbn in *. congruence.
  - intros ->. cbn. by rewrite app_nil_r.
Qed.

Lemma ItemButton_kwargs_become_positional_witness :
  ItemButton_super_call call_with_parent =
    Ok {| positional := [AStr "parent"]; keywords := [] |} /\
  ItemButton_super_call call_with_parent <>
    Ok {| positional := []; keywords := [("parent", AObj "frame")] |}.
Proof.
  destruct (ItemButton_kwargs_become_positional call_with_parent
              {| named := [("width", AInt 49); ("height", AInt 64);
                           ("stylesheet", AStr ""); ("tooltip_label", AStr "")];
                 args := []; kwargs := [("parent", AObj "frame")] |})
    as (Hcall & _ & _ & Hne & _); [vm_compute; reflexivity|].
  split; [exact Hcall|]. apply Hne. discriminate.
Defined.


(** *** More about [ItemButton] *)

(** A release emits nothing or one signal, never both; it emits nothing
    for a button other than left and right; and the event is accepted in
    every case, with its button and position as they were. *)
Theorem release_emits_at_most_one (w h : Z) (e : QMouseEvent) :
  let r := mouseReleaseEvent w h e in
  (fst r = [] \/ fst r = [clicked] \/ fst r = [rightclicked]) /\
  (fst r = [clicked] -> button e = LeftButton) /\
  (fst r = [rightclicked] -> button e = RightButton) /\
  accepted (snd r) = true /\
  button (snd r) = button e /\
  localPos_x (snd r) = localPos_x e /\ localPos_y (snd r) = localPos_y e.
Proof.
  unfold mouseReleaseEvent.
  destruct (button e) eqn:Eb; cbn;
    destruct (Qltb (localPos_x e) (inject_Z w));
    destruct (Qltb (localPos_y e) (inject_Z h)); cbn; rewrite ?Eb;
    repeat split; auto; discriminate.
Qed.

Lemma release_emits_at_most_one_witness :
  button (release_on_button LeftButton) = LeftButton.
Proof.
  destruct (release_emits_at_most_one 49 64 (release_on_button LeftButton))
    as (_ & Hleft & _).
  apply Hleft. reflexivity.
Defined.

Section Objects.

Variable QFrame_init : call -> exc QWidget.
Variable QWidget_init : QWidget.
Variable labels : string -> option QLabel.

(** A call that passes no [tooltip_label] (fewer than four positional
    arguments and no such keyword) never yields a button: the default
    [''] has no [setWindowFlags]. *)
Theorem ItemButton_needs_tooltip_label (c : call) :
  (length (positional c) < 4)%nat ->
  dict_get "tooltip_label" (keywords c) = None ->
  is_ok (ItemButton_init QFrame_init QWidget_init labels c) = false.
Proof.
  intros Hlen Hkw. unfold ItemButton_init, ItemButton_super_call, bind_call.
  destruct c as [pos kw]. cbn [positional keywords] in *.
  destruct pos as [|a0 [|a1 [|a2 [|a3 rest]]]]; cbn [length] in Hlen; try lia;
    cbn -[dict_get filter drop]; rewrite ?Hkw;
    repeat match goal with
      | |- context [dict_get ?k kw] => destruct (dict_get k kw)
      end;
    cbn -[filter drop];
    repeat match goal with
      | |- context [QFrame_init ?x] => destruct (QFrame_init x)
      | |- context [int_arg ?x] => destruct (int_arg x)
      | |- context [str_arg ?x] => destruct (str_arg x)
      end; cbn -[filter drop]; reflexivity.
Qed.

End Objects.

Lemma ItemButton_needs_tooltip_label_witness :
  is_ok (ItemButton_init frame_of (fresh_widget 0 0) one_label call_with_parent)
    = false.
Proof.
  apply ItemButton_needs_tooltip_label; [cbn; lia | reflexivity].
Defined.

Lemma apply_op_keeps (o : ItemButton_op) (b : ItemButton) :
  _rect (_image_space (apply_op o b)) = _rect (_image_space b) /\
  painted (image_widget (_image_space (apply_op o b)))
    = painted (image_widget (_image_space b)) /\
  width (image_widget (_image_space (apply_op o b)))
    = width (image_widget (_image_space b)) /\
  height (image_widget (_image_space (apply_op o b)))
    = height (image_widget (_image_space b)) /\
  updates (image_widget (_image_space (apply_op o b)))
    = ((if requests_repaint o then 1 else 0)
       + updates (image_widget (_image_space b)))%nat.
Proof.
  destruct o; cbn; try by repeat split.
  unfold enterEvent. by destruct (negb _).
Qed.

Lemma apply_ops_snoc (ops : list ItemButton_op) (o : ItemButton_op)
    (b : ItemButton) :
  apply_ops (ops ++ [o]) b = apply_op o (apply_ops ops b).
Proof. unfold apply_ops. by rewrite foldl_app. Qed.

Lemma apply_ops_keep (ops : list ItemButton_op) (b : ItemButton) :
  _rect (_image_space (apply_ops ops b)) = _rect (_image_space b) /\
  painted (image_widget (_image_space (apply_ops ops b)))
    = painted (image_widget (_image_space b)) /\
  width (image_widget (_image_space (apply_ops ops b)))
    = width (image_widget (_image_space b)) /\
  height (image_widget (_image_space (apply_ops ops b)))
    = height (image_widget (_image_space b)) /\
  updates (image_widget (_image_space (apply_ops ops b)))
    = (length (filter (fun o => requests_repaint o = true) ops)
       + updates (image_widget (_image_space b)))%nat.
Proof.
  induction ops as [|o ops IH] using rev_ind; [by repeat split|].
  rewrite apply_ops_snoc.
  destruct (apply_op_keeps o (apply_ops ops b)) as (-> & -> & -> & -> & ->).
  destruct IH as (-> & -> & -> & -> & ->).
  repeat split; try reflexivity.
  rewrite filter_app, length_app, filter_cons, filter_nil.
  destruct (requests_repaint o);
    [rewrite decide_True by done | rewrite decide_False by done]; cbn; lia.
Qed.

Section Buttons.

Variable QFrame_init : call -> exc QWidget.
Variable QWidget_init : QWidget.
Variable labels : string -> option QLabel.

Lemma ItemButton_init_rect (c : call) (b0 : ItemButton) :
  ItemButton_init QFrame_init QWidget_init labels c = Ok b0 ->
  exists w h,
    _rect (_image_space b0) = (0, 0, w, h) /\
    width (image_widget (_image_space b0)) = w /\
    height (image_widget (_image_space b0)) = h /\
    _base b0 = None /\ _overlay b0 = None.
Proof.
  unfold ItemButton_init. intros H.
  repeat match type of H with
    | (match ?x with _ => _ end) = _ => destruct x; try discriminate
    | mbind _ ?x = _ => destruct x; try discriminate;
                          cbn [mbind exc_mbind exc_bind] in H
    end.
  injection H as <-. cbn. by eexists _, _.
Qed.

(** The size a call binds: [width] and [height] are what the call gives
    them. *)
Lemma bind_call_size (c : call) (b : bound) :
  bind_call ItemButton_params c = Ok b ->
  named_arg b "width" = Ok (call_arg c 0 "width" (AInt 49)) /\
  named_arg b "height" = Ok (call_arg c 1 "height" (AInt 64)).
Proof.
  unfold bind_call, call_arg, ItemButton_params. destruct c as [pos kw].
  cbn [positional keywords].
  destruct pos as [|a0 [|a1 [|a2 [|a3 rest]]]];
    cbn [bind_named mbind exc_mbind exc_bind lookup list_lookup];
    repeat match goal with
           | |- context [dict_get ?k kw] =>
               destruct (dict_get k kw) eqn:?;
               cbn [bind_named mbind exc_mbind exc_bind default from_option id]
           end;
    try discriminate; intros [= <-]; split; reflexivity.
Qed.

Lemma ItemButton_init_size (c : call) (b0 : ItemButton) :
  ItemButton_init QFrame_init QWidget_init labels c = Ok b0 ->
  exists w h,
    call_arg c 0 "width" (AInt 49) = AInt w /\
    call_arg c 1 "height" (AInt 64) = AInt h /\
    _rect (_image_space b0) = (0, 0, w, h).
Proof.
  unfold ItemButton_init. intros H.
  destruct (bind_call ItemButton_params c) as [b|] eqn:Eb; [|discriminate].
  destruct (bind_call_size c b Eb) as [Hw Hh].
  cbn [mbind exc_mbind exc_bind] in H.
  destruct (ItemButton_super_call c); [|discriminate].
  cbn [mbind exc_mbind exc_bind] in H.
  destruct (QFrame_init _); [|discriminate].
  cbn [mbind exc_mbind exc_bind] in H.
  rewrite Hw, Hh in H. cbn [mbind exc_mbind exc_bind] in H.
  destruct (call_arg c 0 "width" (AInt 49)) as [w| |]; try discriminate.
  destruct (call_arg c 1 "height" (AInt 64)) as [h| |]; try discriminate.
  cbn [int_arg mbind exc_mbind exc_bind] in H.
  repeat match type of H with
    | mbind _ ?x = _ => destruct x; try discriminate;
                          cbn [mbind exc_mbind exc_bind] in H
    end.
  injection H as <-. by exists w, h.
Qed.

(** A button constructed by a call that gives [width] the value [w] and
    [height] the value [h] (by position, by keyword or by default), after
    any sequence of its operations: the operations have drawn nothing and
    have requested one repaint each (those that change an image or
    clear); the image widget still measures [w] by [h]; and a paint event
    draws the current item, then the current overlay, each into the
    rectangle [(0, 0, w, h)], and nothing else. *)
Theorem ItemButton_paints_in_constructor_rect (c : call) (b0 : ItemButton)
    (ops : list ItemButton_op) :
  ItemButton_init QFrame_init QWidget_init labels c = Ok b0 ->
  exists w h,
    call_arg c 0 "width" (AInt 49) = AInt w /\
    call_arg c 1 "height" (AInt 64) = AInt h /\
    _rect (_image_space b0) = (0, 0, w, h) /\
    let b := apply_ops ops b0 in
    let q := image_widget (_image_space b) in
    painted q = painted (image_widget (_image_space b0)) /\
    updates q = (length (filter (fun o => requests_repaint o = true) ops)
                 + updates (image_widget (_image_space b0)))%nat /\
    width q = w /\ height q = h /\
    painted (image_widget (_image_space (ItemImage_paintEvent b)))
      = painted q
          ++ option_list (DrawInRect 0 0 w h <$> _base b)
          ++ option_list (DrawInRect 0 0 w h <$> _overlay b) /\
    _base (ItemImage_paintEvent b) = _base b /\
    _overlay (ItemImage_paintEvent b) = _overlay b.
Proof.
  intros Hinit.
  destruct (ItemButton_init_size c b0 Hinit) as (w & h & Hcw & Hch & Hr).
  destruct (ItemButton_init_rect c b0 Hinit) as (w' & h' & Hr' & Hw & Hh & _).
  rewrite Hr in Hr'. injection Hr' as <- <-.
  exists w, h. split; [exact Hcw|]. split; [exact Hch|].
  split; [exact Hr|]. intros b q.
  destruct (apply_ops_keep ops b0) as (Hr' & Hp & Hw' & Hh' & Hu).
  fold b in Hr', Hp, Hw', Hh', Hu. fold q in Hp, Hw', Hh', Hu.
  split; [exact Hp|]. split; [exact Hu|].
  split; [congruence|]. split; [congruence|].
  split; [|by split].
  unfold ItemImage_paintEvent. cbn. rewrite Hr', Hr. fold q.
  destruct (_base b), (_overlay b); cbn; rewrite <- ?app_assoc;
    by rewrite ?app_nil_r.
Qed.

End Buttons.

(** A button 49 x 64: after an item with its overlay is set, the overlay
    cleared and the pointer has come and gone, painting draws the item
    alone, 49 x 64. *)
Lemma ItemButton_paints_in_constructor_rect_witness :
  exists b0,
    ItemButton_init frame_of (fresh_widget 0 0) one_label call_with_tooltip
      = Ok b0 /\
    painted
      (image_widget
         (_image_space
            (ItemImage_paintEvent
               (apply_ops [SetItemFull picture null_image "Phaser";
                           ClearOverlay; Enter 1000 (200, 100); Leave] b0))))
      = [DrawInRect 0 0 49 64 picture].
Proof.
  eexists. split; [reflexivity|].
  destruct (ItemButton_paints_in_constructor_rect frame_of (fresh_widget 0 0)
              one_label call_with_tooltip _
              [SetItemFull picture null_image "Phaser"; ClearOverlay;
               Enter 1000 (200, 100); Leave] eq_refl)
    as (w & h & Hw & Hh & _ & _ & _ & _ & _ & Hpaint & _).
  injection Hw as <-. injection Hh as <-. rewrite Hpaint. reflexivity.
Defined.

(** *** More about painting *)

(** One step of a paint event that went through. *)
Ltac first_bound t :=
  lazymatch t with
  | mbind _ ?m => first_bound m
  | _ => t
  end.

Ltac paint_step :=
  match goal with
  | |- (mbind _ ?m = Ok _) -> _ =>
      let m' := first_bound m in
      let E := fresh "E" in
      destruct m' eqn:E; cbn [mbind exc_mbind exc_bind]; [|discriminate]
  end.



(** Painting again changes nothing but the list of what was drawn: a
    paint event keeps the width, the aspect ratio and the image, so a
    second one at once fixes the same height and limits as the first. *)
Theorem ShipImage_repaint_stable (scaledToWidth : QImage -> Z -> QImage)
    (self s1 s2 : ImageLabel) :
  ShipImage_paintEvent scaledToWidth self = Ok s1 ->
  ShipImage_paintEvent scaledToWidth s1 = Ok s2 ->
  width (widget s1) = width (widget self) /\
  _w s1 = _w self /\ _h s1 = _h self /\ p s1 = p self /\
  height (widget s2) = height (widget s1) /\
  minimumHeight (widget s2) = minimumHeight (widget s1) /\
  maximumHeight (widget s2) = maximumHeight (widget s1).
Proof.
  unfold ShipImage_paintEvent, ImageLabel_paintEvent, ShipImage_paint.
  destruct (isNull (p self)) eqn:Hn; cbn [negb mbind exc_mbind exc_bind].
  - rewrite Hn. cbn [negb]. intros [= <-]. rewrite Hn.
    cbn [negb mbind exc_mbind exc_bind]. rewrite Hn. cbn [negb].
    intros [= <-]. by repeat split.
  - paint_step.
    cbn [with_widget p widget _w _h setFixedHeight drawImage width height].
    rewrite Hn. cbn [negb].
    do 9 paint_step. intros [= <-].
    cbn [with_widget p widget _w _h setFixedHeight drawImage width height].
    rewrite Hn. cbn [negb].
    repeat match goal with
           | E : ?m = Ok _ |- context [mbind _ ?m] =>
               rewrite E; cbn [mbind exc_mbind exc_bind]
           end.
    cbn [with_widget p widget _w _h setFixedHeight drawImage width height].
    rewrite Hn. cbn [negb].
    repeat match goal with
           | E : ?m = Ok _ |- context [mbind _ ?m] =>
               rewrite E; cbn [mbind exc_mbind exc_bind]
           end.
    intros [= <-]. by repeat split.
Qed.

Lemma ShipImage_repaint_stable_witness :
  exists s1 s2,
    ShipImage_paintEvent scale_in_proportion picture_label = Ok s1 /\
    ShipImage_paintEvent scale_in_proportion s1 = Ok s2 /\
    height (widget s2) = height (widget s1).
Proof.
  eexists _, _. split; [vm_compute; reflexivity|].
  split; [vm_compute; reflexivity|].
  eapply (ShipImage_repaint_stable scale_in_proportion picture_label);
    vm_compute; reflexivity.
Defined.

(** *** Workers *)

Lemma call_keywords_fresh (k : string) (v : arg) (kw : list (string * arg)) :
  k ∉ map fst kw -> call_keywords [(k, v)] kw = Ok ((k, v) :: kw).
Proof.
  intros Hk. unfold call_keywords.
  replace (existsb _ kw) with false; [done|].
  symmetry. apply not_true_iff_false. intros H.
  apply existsb_exists in H as (kv & Hin & Hkv).
  apply bool_decide_eq_true in Hkv. cbn in Hkv.
  apply list_elem_of_singleton in Hkv. apply Hk. rewrite <- Hkv.
  apply list_elem_of_fmap. exists kv. split; [done|].
  by apply list_elem_of_In.
Qed.

Lemma call_keywords_clash (k : string) (v : arg) (kw : list (string * arg)) :
  k ∈ map fst kw -> call_keywords [(k, v)] kw = Raise TypeError.
Proof.
  intros Hk. unfold call_keywords.
  replace (existsb _ kw) with true; [done|].
  symmetry. apply existsb_exists.
  apply list_elem_of_fmap in Hk as (kv & Hkv & Hin).
  exists kv. split; [by apply list_elem_of_In|].
  apply bool_decide_eq_true. cbn. rewrite <- Hkv. apply list_elem_of_singleton. done.
Qed.

Lemma keys_filter_keywords (k : string) (kw : list (string * arg)) :
  k ∉ exec_in_thread_keywords ->
  k ∈ map fst (filter (fun kv => fst kv ∉ exec_in_thread_keywords) kw)
  <-> k ∈ map fst kw.
Proof.
  intros Hk. split.
  - intros H. apply list_elem_of_fmap in H as (kv & -> & Hin).
    apply list_elem_of_filter in Hin as [_ Hin].
    apply list_elem_of_fmap. by exists kv.
  - intros H. apply list_elem_of_fmap in H as (kv & -> & Hin).
    apply list_elem_of_fmap. exists kv. split; [done|].
    apply list_elem_of_filter. done.
Qed.

Lemma threaded_worker_not_keyword : "threaded_worker" ∉ exec_in_thread_keywords.
Proof. by apply (bool_decide_unpack _); vm_compute. Qed.

Lemma exec_in_thread_ok (func : call -> ST (list thread_event) unit) (c : call) :
  "self" ∉ map fst (keywords c) ->
  "func" ∉ map fst (keywords c) ->
  exists r, exec_in_thread func c = Ok r
    /\ _args (worker r) = positional c
    /\ _kwargs (worker r)
       = filter (fun kv => fst kv ∉ exec_in_thread_keywords) (keywords c)
    /\ _func (worker r) = func.
Proof.
  intros Hs Hf. unfold exec_in_thread.
  rewrite (bool_decide_eq_false_2 _ Hs), (bool_decide_eq_false_2 _ Hf).
  cbn [orb]. eexists. split; [reflexivity|]. done.
Qed.

(** X (exec_in_thread, ThreadObject.run): a function handed to
    [exec_in_thread] is called, when the worker runs, with the positional
    arguments given there followed by the start arguments, and with the
    keyword [threaded_worker] followed by the remaining keywords; the
    keywords [result], [update_splash], [finished] and [start_later] never
    reach it.  [finished] is emitted after the function has returned, and
    not at all when it raised. *)
Theorem exec_in_thread_runs_func
    (func : call -> ST (list thread_event) unit) (c : call)
    (start_args : list arg) (t : list thread_event) :
  "self" ∉ map fst (keywords c) ->
  "func" ∉ map fst (keywords c) ->
  "threaded_worker" ∉ map fst (keywords c) ->
  exists r c',
    exec_in_thread func c = Ok r
    /\ positional c' = positional c ++ start_args
    /\ keywords c'
       = ("threaded_worker", AObj "worker")
         :: filter (fun kv => fst kv ∉ exec_in_thread_keywords) (keywords c)
    /\ (forall k, k ∈ exec_in_thread_keywords -> k ∉ map fst (keywords c'))
    /\ run (worker r) start_args t
       = match func c' (t ++ [Called c']) with
         | (Ok _, t') => (Ok tt, t' ++ [Emitted "finished"])
         | (Raise e, t') => (Raise e, t')
         end.
Proof.
  intros Hs Hf Hw.
  destruct (exec_in_thread_ok func c Hs Hf) as (r & Hr & Ha & Hk & Hfn).
  exists r.
  exists {| positional := positional c ++ start_args;
            keywords := ("threaded_worker", AObj "worker")
              :: filter (fun kv => fst kv ∉ exec_in_thread_keywords) (keywords c) |}.
  split; [done|]. split; [done|]. split; [done|]. split.
  - intros k Hk' Hin. cbn in Hin. apply elem_of_cons in Hin as [->|Hin].
    + by apply threaded_worker_not_keyword.
    + apply list_elem_of_fmap in Hin as (kv & -> & Hin).
      apply list_elem_of_filter in Hin as [Hn _]. by apply Hn.
  - unfold run. rewrite Ha, Hk, Hfn.
    rewrite call_keywords_fresh
      by (rewrite keys_filter_keywords; [done | apply threaded_worker_not_keyword]).
    unfold mbind, ST_mbind, ST_bind, lift, note. cbn.
    destruct (func _ _) as [[[]|e] t']; reflexivity.
Qed.

Lemma exec_in_thread_runs_func_witness :
  exists r,
    exec_in_thread reporting_func call_with_finished = Ok r
    /\ run (worker r) [AInt 7] [] =
       (Ok tt,
        [Called {| positional := [AInt 1; AInt 7];
                   keywords := [("threaded_worker", AObj "worker");
                                ("title", AStr "ships")] |};
         Emitted "result"; Emitted "finished"]).
Proof.
  destruct (exec_in_thread_runs_func reporting_func call_with_finished [AInt 7] [])
    as (r & c' & Hr & Hp & Hk & _ & Hrun).
  - by apply (bool_decide_unpack _); vm_compute.
  - by apply (bool_decide_unpack _); vm_compute.
  - by apply (bool_decide_unpack _); vm_compute.
  - exists r. split; [exact Hr|]. rewrite Hrun.
    destruct c' as [p k]. cbn in Hp, Hk. subst p k. reflexivity.
Defined.

(** X (exec_in_thread, ThreadObject.run): a keyword named
    [threaded_worker] is accepted by [exec_in_thread] and stored in the
    worker, but the worker then fails with a [TypeError] when it runs: the
    function is not called and [finished] is not emitted, whatever the
    function is. *)
Theorem threaded_worker_keyword_clash
    (func : call -> ST (list thread_event) unit) (c : call)
    (start_args : list arg) (t : list thread_event) :
  "self" ∉ map fst (keywords c) ->
  "func" ∉ map fst (keywords c) ->
  "threaded_worker" ∈ map fst (keywords c) ->
  exists r,
    exec_in_thread func c = Ok r
    /\ run (worker r) start_args t = (Raise TypeError, t).
Proof.
  intros Hs Hf Hw.
  destruct (exec_in_thread_ok func c Hs Hf) as (r & Hr & Ha & Hk & Hfn).
  exists r. split; [done|].
  unfold run. rewrite Hk.
  rewrite call_keywords_clash
    by (rewrite keys_filter_keywords; [done | apply threaded_worker_not_keyword]).
  reflexivity.
Qed.

Lemma threaded_worker_keyword_clash_witness :
  exists r,
    exec_in_thread reporting_func
      {| positional := []; keywords := [("threaded_worker", AInt 1)] |} = Ok r
    /\ run (worker r) [] [] = (Raise TypeError, []).
Proof.
  apply (threaded_worker_keyword_clash reporting_func
           {| positional := []; keywords := [("threaded_worker", AInt 1)] |} [] []).
  - by apply (bool_decide_unpack _); vm_compute.
  - by apply (bool_decide_unpack _); vm_compute.
  - by apply (bool_decide_unpack _); vm_compute.
Defined.

End WidgetsFacts.

Module AppFacts.
Import Py App.
Local Open Scope list_scope.

(** *** Paths *)

Lemma split_path_no_sep (sep : ascii -> bool) (n : string) :
  has_sep sep n = false -> split_path sep n = None.
Proof.
  induction n as [|c n IH]; [reflexivity|]. cbn.
  intros H. apply orb_false_iff in H as [Hc Hn].
  by rewrite IH, Hc.
Qed.

(** A directory, one separator and a name without separator split into
    the directory and the name. *)
Lemma split_path_join (sep : ascii -> bool) (c : ascii) (d n : string) :
  sep c = true -> has_sep sep n = false ->
  split_path sep (d +:+ String c n) = Some (d, n).
Proof.
  intros Hc Hn. induction d as [|a d IH].
  - change (split_path sep (String c n) = Some (EmptyString, n)). cbn.
    by rewrite split_path_no_sep, Hc.
  - change (split_path sep (String a (d +:+ String c n)) =
            Some (String a d, n)).
    cbn. by rewrite IH.
Qed.

Section Shell.

Context {qvariant json : Type}.
Variable abspath : string -> string.
Variable toFloat : qvariant -> Q.
Variable ancestors : string -> gset string.
Variable empty_build : json.

Implicit Types (self : SETS qvariant json) (w : world qvariant json).

(** *** Settings *)

Lemma init_setting_fold (base : QSettings qvariant)
    (defaults : gmap string qvariant) :
  let r := map_fold init_setting base defaults in
  fileName r = fileName base /\ store r = store base ∪ defaults.
Proof.
  cbv zeta.
  apply (map_fold_weak_ind
           (fun r m => fileName r = fileName base /\ store r = store base ∪ m)).
  - split; [reflexivity|]. symmetry. apply map_union_empty.
  - intros i x m r Hi [Hf Hs]. unfold init_setting, value.
    destruct (store r !! i) as [y|] eqn:E.
    + split; [exact Hf|]. rewrite Hs. rewrite Hs in E.
      apply map_eq. intros j. destruct (decide (i = j)) as [<-|Hne].
      * rewrite E. apply lookup_union_Some_raw in E as [E|[_ E]]; [|congruence].
        symmetry. by apply lookup_union_Some_l.
      * rewrite !lookup_union, lookup_insert_ne by done. reflexivity.
    + split; [exact Hf|]. cbn. rewrite Hs. rewrite Hs in E.
      apply lookup_union_None in E as [E _].
      by rewrite insert_union_r.
Qed.

Lemma init_settings_store (disk : gmap string (gmap string qvariant)) self :
  store (settings (init_settings abspath disk self)) =
    default ∅ (disk !! abspath (app_dir self +:+ settings_path (config_ self)))
    ∪ default_settings (config_ self).
Proof.
  unfold init_settings. cbn [settings].
  destruct (init_setting_fold
              (QSettings_open disk
                 (abspath (app_dir self +:+ settings_path (config_ self))))
              (default_settings (config_ self))) as [_ Hs].
  exact Hs.
Qed.

Lemma init_settings_fileName (disk : gmap string (gmap string qvariant)) self :
  fileName (settings (init_settings abspath disk self)) =
    abspath (app_dir self +:+ settings_path (config_ self)).
Proof.
  unfold init_settings. cbn [settings].
  destruct (init_setting_fold
              (QSettings_open disk
                 (abspath (app_dir self +:+ settings_path (config_ self))))
              (default_settings (config_ self))) as [Hf _].
  exact Hf.
Qed.

(** C6: with no settings file, every key of the defaults is set to its
    default; a key the file holds keeps the value of the file; so a value
    changed after the first run and written back is still there after the
    next [init_settings]. *)
Theorem settings_defaults_then_preserved (disk : gmap string (gmap string qvariant)) self :
  let path := abspath (app_dir self +:+ settings_path (config_ self)) in
  (disk !! path = None ->
   forall k v, default_settings (config_ self) !! k = Some v ->
               value (settings (init_settings abspath disk self)) k = Some v) /\
  (forall stored k v,
     disk !! path = Some stored -> stored !! k = Some v ->
     value (settings (init_settings abspath disk self)) k = Some v) /\
  (forall k v',
     let first := settings (init_settings abspath disk self) in
     let disk' := sync (setValue k v' first) disk in
     value (settings (init_settings abspath disk' self)) k = Some v').
Proof.
  intros path.
  assert (Hstored : forall d stored k v,
             d !! path = Some stored -> stored !! k = Some v ->
             value (settings (init_settings abspath d self)) k = Some v).
  { intros d stored k v Hd Hk. unfold value. rewrite init_settings_store.
    fold path. rewrite Hd. cbn. by apply lookup_union_Some_l. }
  split; [|split].
  - intros Hd k v Hk. unfold value. rewrite init_settings_store.
    fold path. rewrite Hd. cbn. by rewrite (left_id_L ∅ (∪)).
  - intros stored k v. apply Hstored.
  - intros k v' first disk'.
    apply (Hstored disk' (<[k := v']> (store first))).
    + unfold disk', sync. cbn [fileName store setValue].
      unfold first. rewrite init_settings_fileName. fold path.
      by rewrite lookup_insert_eq.
    + by rewrite lookup_insert_eq.
Qed.

(** *** Configuration *)

(** C10: the scaled box is the base box times the [ui_scale] setting
    times 0.8, which differs from the base box times [ui_scale] alone
    whenever that is not zero. *)
Theorem box_scaled_by_ui_scale_and_0_8 self :
  let c := config_ self in
  let s := value_float toFloat (settings self) "ui_scale" in
  let self' := init_config abspath toFloat self in
  ui_scale (config_ self') = Some s /\
  box_width self' = Some (config_box_width c * s * (8 # 10))%Q /\
  box_height self' = Some (config_box_height c * s * (8 # 10))%Q /\
  (~ (config_box_width c * s == 0)%Q ->
   ~ (config_box_width c * s * (8 # 10) == config_box_width c * s)%Q) /\
  (~ (config_box_height c * s == 0)%Q ->
   ~ (config_box_height c * s * (8 # 10) == config_box_height c * s)%Q).
Proof.
  intros c s self'.
  split; [reflexivity|]. split; [reflexivity|]. split; [reflexivity|].
  split; intros Hnz Heq; apply Hnz; lra.
Qed.

(** *** Startup *)

Lemma create_folder_run (path : string) w :
  create_folder ancestors path w =
    (Ok tt,
     {| fs := {| dirs := {[path]} ∪ ancestors path ∪ dirs (fs w);
                 files := files (fs w) |};
        qsettings := qsettings w; close_accepted := close_accepted w;
        log := log w ++ [FolderCreated path] |}).
Proof. reflexivity. Qed.

(** The folders are created without touching a file. *)
Lemma create_folders_files self w w1 :
  create_folders ancestors self w = (Ok tt, w1) ->
  files (fs w1) = files (fs w).
Proof.
  unfold create_folders, subfolder.
  destruct (config_subfolders (config_ self) !! "library"); [|discriminate].
  destruct (config_subfolders (config_ self) !! "cache"); [|discriminate].
  destruct (config_subfolders (config_ self) !! "cargo"); [|discriminate].
  destruct (config_subfolders (config_ self) !! "images"); [|discriminate].
  destruct (config_subfolders (config_ self) !! "ship_images");
    [|discriminate].
  by intros [= <-].
Qed.

Lemma create_folders_run self w (library cache cargo images ship_images : string) :
  config_subfolders (config_ self) !! "library" = Some library ->
  config_subfolders (config_ self) !! "cache" = Some cache ->
  config_subfolders (config_ self) !! "cargo" = Some cargo ->
  config_subfolders (config_ self) !! "images" = Some images ->
  config_subfolders (config_ self) !! "ship_images" = Some ship_images ->
  exists w1, create_folders ancestors self w = (Ok tt, w1).
Proof.
  intros H1 H2 H3 H4 H5. unfold create_folders, subfolder.
  rewrite H1, H2, H3, H4, H5. eexists. reflexivity.
Qed.

(** The autosave path is the absolute config folder, a backslash, and the
    configured file name; under Windows path rules that is the file of
    that name inside the config folder.  At startup, once the folders are
    created, if nothing exists at that path the empty build is stored
    there, and if something exists nothing is written. *)
Theorem autosave_file_in_config_folder self w :
  let self' := init_config abspath toFloat self in
  let folder := abspath (app_dir self +:+ config_folder_path (config_ self)) in
  let name := autosave_filename (config_ self) in
  let path := autosave_filename (config_ self') in
  config_folder_path (config_ self') = folder /\
  path = folder +:+ "\" +:+ name /\
  (has_sep windows_sep name = false ->
   split_path windows_sep path = Some (folder, name)) /\
  (forall w1,
     create_folders ancestors self' w = (Ok tt, w1) ->
     path_exists path (fs w1) = false ->
     exists w2,
       init_environment ancestors empty_build self' w = (Ok tt, w2) /\
       files (fs w2) !! path = Some empty_build /\
       log w2 = log w1 ++ [JsonStored path empty_build]) /\
  (forall w1,
     create_folders ancestors self' w = (Ok tt, w1) ->
     path_exists path (fs w1) = true ->
     init_environment ancestors empty_build self' w = (Ok tt, w1)).
Proof.
  intros self' folder name path.
  split; [reflexivity|]. split; [reflexivity|]. split; [|split].
  - intros Hn. by apply (split_path_join windows_sep "\"%char folder name).
  - intros w1 Hw1 He. unfold init_environment.
    unfold mbind, ST_mbind, ST_bind. rewrite Hw1.
    unfold os_path_exists. fold path. rewrite He. cbn [negb].
    eexists. split; [reflexivity|]. cbn. split; [|reflexivity].
    apply lookup_insert_eq.
  - intros w1 Hw1 He. unfold init_environment.
    unfold mbind, ST_mbind, ST_bind. rewrite Hw1.
    unfold os_path_exists. fold path. rewrite He. reflexivity.
Qed.

(** *** Shutdown *)

(** C7: the close callback writes the geometry to the settings, then
    stores the build in the autosave file, then accepts the event; the
    event is not accepted before both writes are done. *)
Theorem close_persists_then_accepts self (g : qvariant) w :
  exists w1 w2 w3,
    settings_setValue "geometry" g w = (Ok tt, w1) /\
    autosave self w1 = (Ok tt, w2) /\
    event_accept w2 = (Ok tt, w3) /\
    main_window_close_callback self g w = (Ok tt, w3) /\
    log w3 = log w ++
      [SettingWritten "geometry" g;
       JsonStored (autosave_filename (config_ self)) (build self);
       CloseAccepted] /\
    close_accepted w1 = close_accepted w /\
    close_accepted w2 = close_accepted w /\
    close_accepted w3 = true /\
    value (qsettings w3) "geometry" = Some g /\
    files (fs w3) !! autosave_filename (config_ self) = Some (build self).
Proof.
  eexists _, _, _.
  split; [reflexivity|]. split; [reflexivity|]. split; [reflexivity|].
  split; [reflexivity|]. cbn.
  split; [by rewrite <- !app_assoc|].
  split; [reflexivity|]. split; [reflexivity|]. split; [reflexivity|].
  split; apply lookup_insert_eq.
Qed.

End Shell.

(** *** On a concrete shell *)

(** First run: the defaults are set; a scale of 1.25 chosen afterwards is
    still there after the next start. *)
Lemma settings_defaults_then_preserved_witness :
  value (settings (init_settings abspath_id ∅ example_shell)) "ui_scale"
    = Some (VFloat 1) /\
  value (settings
           (init_settings abspath_id
              (sync (setValue "ui_scale" (VFloat (5 # 4))
                       (settings (init_settings abspath_id ∅ example_shell)))
                 ∅)
              example_shell)) "ui_scale"
    = Some (VFloat (5 # 4)).
Proof.
  destruct (settings_defaults_then_preserved abspath_id ∅ example_shell)
    as (Hfirst & _ & Hlater).
  split.
  - apply Hfirst; reflexivity.
  - apply Hlater.
Defined.

(** With a scale of 1.25 the box of width 49 stays 49 wide (times 1.25,
    times 0.8), not 61.25. *)
Lemma box_scaled_by_ui_scale_and_0_8_witness :
  box_width (init_config abspath_id setting_toFloat scaled_shell)
    = Some (49 * (5 # 4) * (8 # 10))%Q /\
  ~ (49 * (5 # 4) * (8 # 10) == 49 * (5 # 4))%Q.
Proof.
  destruct (box_scaled_by_ui_scale_and_0_8 abspath_id setting_toFloat
              scaled_shell) as (_ & Hw & _ & Hne & _).
  split; [exact Hw|]. apply Hne. vm_compute. discriminate.
Defined.

(** C3: a shell installed in [/opt/sets] on a POSIX system, with the
    config folder [/.config].  The subfolders are joined to the config
    folder with the separator the configuration supplies, and lie in it.
    The autosave path is joined with a backslash: it is not
    [<config_folder>/<autosave_filename>] but names the file
    [.config\.autosave.json] in the application directory, and that is
    where startup stores the empty build; nothing is created at
    [<config_folder>/<autosave_filename>]. *)
Theorem autosave_file_outside_config_folder :
  config_folder_path (config_ configured_shell) = "/opt/sets/.config" /\
  config_subfolders (config_ configured_shell) !! "library"
    = Some "/opt/sets/.config/library" /\
  split_path posix_sep "/opt/sets/.config/library"
    = Some ("/opt/sets/.config", "library") /\
  autosave_filename (config_ configured_shell)
    = "/opt/sets/.config\.autosave.json" /\
  autosave_filename (config_ configured_shell)
    <> "/opt/sets/.config/.autosave.json" /\
  split_path posix_sep (autosave_filename (config_ configured_shell))
    = Some ("/opt/sets", ".config\.autosave.json") /\
  exists w,
    init_environment no_ancestors "{}" configured_shell empty_world = (Ok tt, w) /\
    files (fs w) !! "/opt/sets/.config\.autosave.json" = Some "{}" /\
    files (fs w) !! "/opt/sets/.config/.autosave.json" = None.
Proof.
  repeat (split; [vm_compute; (reflexivity || discriminate)|]).
  exists (snd (init_environment no_ancestors "{}" configured_shell empty_world)).
  repeat split; vm_compute; reflexivity.
Qed.

(** On that shell and an empty disk, under Windows path rules: the path
    splits into the config folder and the file name, and startup stores
    the empty build there. *)
Lemma autosave_file_in_config_folder_witness :
  split_path windows_sep (autosave_filename (config_ configured_shell))
    = Some ("/opt/sets/.config", ".autosave.json") /\
  exists w2,
    init_environment no_ancestors "{}" configured_shell empty_world
      = (Ok tt, w2) /\
    files (fs w2) !! "/opt/sets/.config\.autosave.json" = Some "{}".
Proof.
  destruct (autosave_file_in_config_folder abspath_id setting_toFloat
              no_ancestors "{}" example_shell empty_world)
    as (_ & _ & Hsplit & Hnew & _).
  split; [apply Hsplit; reflexivity|].
  destruct (create_folders_run no_ancestors configured_shell empty_world
              "/opt/sets/.config/library" "/opt/sets/.config/cache"
              "/opt/sets/.config/cargo" "/opt/sets/.config/images"
              "/opt/sets/.config/ship_images")
    as [w1 Hw1]; try (vm_compute; reflexivity).
  destruct (Hnew w1 Hw1) as (w2 & Hrun & Hfile & _).
  - vm_compute in Hw1. injection Hw1 as <-. vm_compute. reflexivity.
  - exists w2. split; [exact Hrun | exact Hfile].
Defined.


(** ** Startup and shutdown together *)

Section Startup.

Context {qvariant json : Type}.
Variable abspath : string -> string.
Variable toFloat : qvariant -> Q.
Variable truthy : qvariant -> bool.
Variable ancestors : string -> gset string.
Variable empty_build : json.

Implicit Types (self : SETS qvariant json) (w : world qvariant json).

(** [init_settings] in full: a key of the settings file keeps the value of
    the file, a key the file lacks takes its default, and a key that is in
    neither stays unset. *)
Theorem init_settings_value (disk : gmap string (gmap string qvariant)) self
    (k : string) :
  let file :=
    default ∅ (disk !! abspath (app_dir self +:+ settings_path (config_ self))) in
  value (settings (init_settings abspath disk self)) k =
    match file !! k with
    | Some v => Some v
    | None => default_settings (config_ self) !! k
    end.
Proof.
  cbv zeta. unfold value. rewrite init_settings_store.
  rewrite lookup_union. by destruct (_ !! k), (_ !! k).
Qed.

(** Starting a second time changes nothing: once the settings of the
    first start are written to their file, [init_settings] reads back the
    same keys with the same values and writes none. *)
Theorem init_settings_idempotent (disk : gmap string (gmap string qvariant)) self :
  let first := settings (init_settings abspath disk self) in
  settings (init_settings abspath (sync first disk) self) = first.
Proof.
  cbv zeta.
  set (first := settings (init_settings abspath disk self)).
  assert (Hf : fileName first
               = abspath (app_dir self +:+ settings_path (config_ self)))
    by apply init_settings_fileName.
  assert (Hs : store first
               = default ∅ (disk !! abspath (app_dir self +:+ settings_path (config_ self)))
                 ∪ default_settings (config_ self))
    by apply init_settings_store.
  pose proof (init_settings_fileName abspath (sync first disk) self) as Hf2.
  pose proof (init_settings_store abspath (sync first disk) self) as Hs2.
  unfold sync in Hs2 at 2. rewrite Hf, lookup_insert_eq in Hs2.
  cbn [default from_option id] in Hs2.
  assert (Heq : forall a b : QSettings qvariant,
             fileName a = fileName b -> store a = store b -> a = b).
  { intros [] []. cbn. by intros -> ->. }
  apply Heq.
  - by rewrite Hf2, Hf.
  - rewrite Hs2, Hs. rewrite <- (assoc_L (∪)). by rewrite (idemp_L (∪)).
Qed.

(** The scale of the interface after [init_settings] and [init_config]:
    the stored [ui_scale] when the settings file has one, else the default
    one, else 0, and then the boxes are 0 wide and 0 high. *)
Theorem startup_scale_source (disk : gmap string (gmap string qvariant)) self :
  let file :=
    default ∅ (disk !! abspath (app_dir self +:+ settings_path (config_ self))) in
  let scale :=
    match file !! "ui_scale" with
    | Some v => toFloat v
    | None => from_option toFloat 0%Q (default_settings (config_ self) !! "ui_scale")
    end in
  let self' := init_config abspath toFloat (init_settings abspath disk self) in
  ui_scale (config_ self') = Some scale
  /\ box_width self' = Some (config_box_width (config_ self) * scale * (8 # 10))%Q
  /\ box_height self' = Some (config_box_height (config_ self) * scale * (8 # 10))%Q
  /\ (file !! "ui_scale" = None ->
      default_settings (config_ self) !! "ui_scale" = None ->
      exists bw bh, box_width self' = Some bw /\ box_height self' = Some bh
                    /\ (bw == 0)%Q /\ (bh == 0)%Q).
Proof.
  cbv zeta.
  assert (E : value_float toFloat (settings (init_settings abspath disk self)) "ui_scale"
              = match default ∅ (disk !! abspath (app_dir self +:+ settings_path (config_ self)))
                      !! "ui_scale" with
                | Some v => toFloat v
                | None => from_option toFloat 0%Q
                            (default_settings (config_ self) !! "ui_scale")
                end).
  { unfold value_float. rewrite init_settings_store, lookup_union.
    by destruct (_ !! "ui_scale"), (_ !! "ui_scale"). }
  unfold init_config. cbn [ui_scale config_ box_width box_height].
  rewrite E. cbn [init_settings config_].
  split; [reflexivity|]. split; [reflexivity|]. split; [reflexivity|].
  intros Hn Hd. rewrite Hn, Hd. cbn [from_option].
  eexists _, _. split; [reflexivity|]. split; [reflexivity|]. split; ring.
Qed.

(** From one run to the next: the geometry the close callback stores is,
    once the settings are written to their file, the geometry
    [create_main_window] restores at the next start, whatever the default
    for [geometry] is; the other settings are as they were. *)
Theorem geometry_round_trip (disk : gmap string (gmap string qvariant)) self
    (g : qvariant) w :
  truthy g = true ->
  qsettings w = settings (init_settings abspath disk self) ->
  let w' := snd (main_window_close_callback self g w) in
  let next := init_settings abspath (sync (qsettings w') disk) self in
  restored_geometry truthy next = Some g
  /\ forall k, k <> "geometry" ->
       value (settings next) k = value (qsettings w) k.
Proof.
  intros Hg Hq. cbv zeta.
  assert (Hw' : qsettings (snd (main_window_close_callback self g w))
                = setValue "geometry" g (qsettings w)) by reflexivity.
  rewrite Hw'. clear Hw'.
  assert (Hl : forall k,
    value (settings (init_settings abspath
                       (sync (setValue "geometry" g (qsettings w)) disk) self)) k
    = match <["geometry" := g]> (store (qsettings w)) !! k with
      | Some v => Some v
      | None => default_settings (config_ self) !! k
      end).
  { intros k. unfold value. rewrite init_settings_store.
    unfold sync. cbn [fileName setValue store].
    rewrite Hq at 1. rewrite init_settings_fileName, lookup_insert_eq. cbn.
    rewrite lookup_union.
    by destruct (_ !! k), (_ !! k). }
  split.
  - unfold restored_geometry. rewrite Hl, lookup_insert_eq. by rewrite Hg.
  - intros k Hk. rewrite Hl. rewrite lookup_insert_ne by done.
    unfold value. destruct (store (qsettings w) !! k) eqn:E; [done|].
    rewrite Hq in E. rewrite init_settings_store in E.
    by apply lookup_union_None in E as [_ E].
Qed.

(** *** The environment *)

Lemma subfolder_run self (name : string) w :
  subfolder self name w =
    match config_subfolders (config_ self) !! name with
    | Some path => (Ok path, w)
    | None => (Raise KeyError, w)
    end.
Proof. unfold subfolder. by destruct (_ !! name). Qed.

(** Whatever [create_folders] does, it does to directories. *)
Lemma create_folders_frame self w :
  let r := create_folders ancestors self w in
  files (fs (snd r)) = files (fs w)
  /\ qsettings (snd r) = qsettings w
  /\ close_accepted (snd r) = close_accepted w
  /\ dirs (fs w) ⊆ dirs (fs (snd r))
  /\ (fst r = Ok tt \/ fst r = Raise KeyError).
Proof.
  cbv zeta. unfold create_folders, subfolder.
  unfold mbind, ST_mbind, ST_bind, mret, ST_mret, lift, create_folder.
  destruct (config_subfolders (config_ self) !! "library");
    [|cbn; repeat split; [repeat apply union_subseteq_r'; done | by right]].
  destruct (config_subfolders (config_ self) !! "cache");
    [|cbn; repeat split; [repeat apply union_subseteq_r'; done | by right]].
  destruct (config_subfolders (config_ self) !! "cargo");
    [|cbn; repeat split; [repeat apply union_subseteq_r'; done | by right]].
  destruct (config_subfolders (config_ self) !! "images");
    [|cbn; repeat split; [repeat apply union_subseteq_r'; done | by right]].
  destruct (config_subfolders (config_ self) !! "ship_images");
    [|cbn; repeat split; [repeat apply union_subseteq_r'; done | by right]].
  cbn; repeat split; [repeat apply union_subseteq_r'; done | by left].
Qed.

(** A subfolder missing from the configuration stops the startup with a
    [KeyError] before the autosave file is looked at: no file is written,
    and the settings are untouched. *)
Theorem init_environment_missing_subfolder self w (name : string) :
  name ∈ ["library"; "cache"; "cargo"; "images"; "ship_images"] ->
  config_subfolders (config_ self) !! name = None ->
  exists w1,
    init_environment ancestors empty_build self w = (Raise KeyError, w1)
    /\ files (fs w1) = files (fs w)
    /\ qsettings w1 = qsettings w
    /\ forall path data, JsonStored path data ∈ log w1 ->
                         JsonStored path data ∈ log w.
Proof.
  intros Hin Hnone.
  assert (Hc : exists w1,
             create_folders ancestors self w = (Raise KeyError, w1)
             /\ files (fs w1) = files (fs w)
             /\ qsettings w1 = qsettings w
             /\ forall path data, JsonStored path data ∈ log w1 ->
                                  JsonStored path data ∈ log w).
  { unfold create_folders, subfolder.
    unfold mbind, ST_mbind, ST_bind, mret, ST_mret, lift, create_folder.
    repeat (apply elem_of_cons in Hin as [->|Hin]);
      [..|by apply elem_of_nil in Hin];
      rewrite ?Hnone;
      repeat match goal with
             | |- context [config_subfolders (config_ self) !! ?k] =>
                 destruct (config_subfolders (config_ self) !! k) eqn:?;
                 try discriminate
             end;
      (eexists; split; [reflexivity|]; cbn;
       split; [reflexivity|]; split; [reflexivity|];
       intros path data Hl;
       repeat (apply elem_of_app in Hl as [Hl|Hl];
               [|apply list_elem_of_singleton in Hl; discriminate]);
       exact Hl). }
  destruct Hc as (w1 & Hc & Hfiles & Hq & Hlog).
  exists w1. split; [|done].
  unfold init_environment. unfold mbind, ST_mbind, ST_bind. by rewrite Hc.
Qed.

(** [init_config] and [init_environment] together: with the five
    subfolders configured, the folders asked for are the absolute config
    folder and then each subfolder path appended to it, in the order
    library, cache, cargo, images, ship_images; after them comes at most
    one write, of the empty build to the autosave path. *)
Theorem init_config_then_environment self w
    (library cache cargo images ship_images : string) :
  config_subfolders (config_ self) !! "library" = Some library ->
  config_subfolders (config_ self) !! "cache" = Some cache ->
  config_subfolders (config_ self) !! "cargo" = Some cargo ->
  config_subfolders (config_ self) !! "images" = Some images ->
  config_subfolders (config_ self) !! "ship_images" = Some ship_images ->
  let folder := abspath (app_dir self +:+ config_folder_path (config_ self)) in
  let self' := init_config abspath toFloat self in
  exists w1 tail,
    init_environment ancestors empty_build self' w = (Ok tt, w1)
    /\ log w1 = log w ++
         [FolderCreated folder;
          FolderCreated (folder +:+ library);
          FolderCreated (folder +:+ cache);
          FolderCreated (folder +:+ cargo);
          FolderCreated (folder +:+ images);
          FolderCreated (folder +:+ ship_images)] ++ tail
    /\ (tail = []
        \/ tail = [JsonStored (folder +:+ "\" +:+ autosave_filename (config_ self))
                     empty_build]).
Proof.
  intros H1 H2 H3 H4 H5. cbv zeta.
  set (folder := abspath (app_dir self +:+ config_folder_path (config_ self))).
  set (self' := init_config abspath toFloat self).
  assert (Hsub : forall k p,
             config_subfolders (config_ self) !! k = Some p ->
             config_subfolders (config_ self') !! k = Some (folder +:+ p)).
  { intros k p Hk. subst self'. cbn [init_config config_ config_subfolders].
    by rewrite lookup_fmap, Hk. }
  unfold init_environment, create_folders, subfolder.
  rewrite (Hsub _ _ H1), (Hsub _ _ H2), (Hsub _ _ H3), (Hsub _ _ H4),
    (Hsub _ _ H5).
  unfold mbind, ST_mbind, ST_bind, mret, ST_mret, create_folder, os_path_exists.
  cbn [fs dirs files log qsettings close_accepted].
  match goal with
  | |- context [negb ?b] => destruct b
  end; cbn [negb].
  - eexists _, []. split; [reflexivity|]. cbn [log].
    split; [|by left]. rewrite <- !app_assoc. reflexivity.
  - eexists _, [_]. split; [reflexivity|]. cbn [log store_json snd].
    split; [|by right]. rewrite <- !app_assoc. reflexivity.
Qed.

(** [init_environment] never touches what is there: whatever its outcome,
    every file on the disk keeps its content, every directory stays, and
    the settings are not written. *)
Theorem init_environment_keeps_files self w :
  let w1 := snd (init_environment ancestors empty_build self w) in
  (forall path data, files (fs w) !! path = Some data ->
                     files (fs w1) !! path = Some data)
  /\ dirs (fs w) ⊆ dirs (fs w1)
  /\ qsettings w1 = qsettings w.
Proof.
  cbv zeta.
  destruct (create_folders_frame self w) as (Hf & Hq & _ & Hd & Hr).
  remember (init_environment ancestors empty_build self w) as res eqn:Hres.
  unfold init_environment in Hres.
  unfold mbind, ST_mbind, ST_bind, os_path_exists in Hres.
  destruct (create_folders ancestors self w) as [r w0]. cbn [fst snd] in *.
  destruct Hr as [-> | ->]; [|subst res; cbn; rewrite Hf; done].
  destruct (path_exists (autosave_filename (config_ self)) (fs w0)) eqn:E;
    cbn [negb] in Hres; subst res; [cbn; rewrite Hf; done|].
  cbn. split; [|done].
  intros path data Hp. rewrite <- Hf in Hp.
  destruct (decide (autosave_filename (config_ self) = path)) as [<-|Hne].
  - unfold path_exists in E. apply orb_false_elim in E as [_ E].
    apply bool_decide_eq_false in E. exfalso. apply E. by eexists.
  - by rewrite lookup_insert_ne.
Qed.

(** What a successful [create_folders] adds to the directories depends on
    the configuration alone. *)
Lemma create_folders_dirs self w w1 :
  create_folders ancestors self w = (Ok tt, w1) ->
  exists F : gset string,
    forall w', exists w1',
      create_folders ancestors self w' = (Ok tt, w1')
      /\ dirs (fs w1') = F ∪ dirs (fs w')
      /\ files (fs w1') = files (fs w').
Proof.
  unfold create_folders, subfolder.
  unfold mbind, ST_mbind, ST_bind, mret, ST_mret, lift, create_folder.
  destruct (config_subfolders (config_ self) !! "library") as [p1|];
    [|discriminate].
  destruct (config_subfolders (config_ self) !! "cache") as [p2|];
    [|discriminate].
  destruct (config_subfolders (config_ self) !! "cargo") as [p3|];
    [|discriminate].
  destruct (config_subfolders (config_ self) !! "images") as [p4|];
    [|discriminate].
  destruct (config_subfolders (config_ self) !! "ship_images") as [p5|];
    [|discriminate].
  intros _.
  exists ({[p5]} ∪ ancestors p5 ∪ ({[p4]} ∪ ancestors p4
          ∪ ({[p3]} ∪ ancestors p3 ∪ ({[p2]} ∪ ancestors p2
          ∪ ({[p1]} ∪ ancestors p1
          ∪ ({[config_folder_path (config_ self)]}
             ∪ ancestors (config_folder_path (config_ self)))))))).
  intros w'. eexists. split; [reflexivity|]. cbn. split; [|reflexivity].
  by rewrite !(assoc_L (∪)).
Qed.

(** After a start that went through, something exists at the autosave
    path, and starting again leaves the disk as it is. *)
Theorem init_environment_twice self w w1 :
  init_environment ancestors empty_build self w = (Ok tt, w1) ->
  path_exists (autosave_filename (config_ self)) (fs w1) = true
  /\ exists w2,
       init_environment ancestors empty_build self w1 = (Ok tt, w2)
       /\ dirs (fs w2) = dirs (fs w1)
       /\ files (fs w2) = files (fs w1).
Proof.
  unfold init_environment. unfold mbind at 1 3. unfold ST_mbind, ST_bind.
  destruct (create_folders ancestors self w) as [[[]|e] w0] eqn:Hc;
    [|discriminate].
  destruct (create_folders_dirs self w w0 Hc) as [F HF].
  destruct (HF w) as (w0' & Hc' & Hd0 & Hf0).
  rewrite Hc in Hc'. injection Hc' as <-.
  set (a := autosave_filename (config_ self)).
  unfold mbind at 1. unfold ST_mbind, ST_bind, os_path_exists.
  destruct (path_exists a (fs w0)) eqn:E; cbn [negb].
  - intros [= <-]. split; [exact E|].
    destruct (HF w0) as (w2 & Hc2 & Hd2 & Hf2). rewrite Hc2.
    assert (Hd : dirs (fs w2) = dirs (fs w0)) by (rewrite Hd2, Hd0; by rewrite (assoc_L (∪)), (idemp_L (∪))).
    unfold mbind, ST_mbind, ST_bind.
    replace (path_exists a (fs w2)) with true
      by (unfold path_exists in *; by rewrite Hd, Hf2).
    cbn [negb]. eexists. split; [reflexivity|]. done.
  - intros [= <-].
    assert (Ha : path_exists a (fs (snd (store_json empty_build a w0))) = true).
    { unfold path_exists. cbn. apply orb_true_iff. right.
      apply bool_decide_eq_true. rewrite lookup_insert_eq. by eexists. }
    split; [exact Ha|].
    destruct (HF (snd (store_json empty_build a w0))) as (w2 & Hc2 & Hd2 & Hf2).
    unfold store_json in Hc2. cbn [snd] in Hc2.
    rewrite Hc2.
    assert (Hd : dirs (fs w2) = dirs (fs w0))
      by (rewrite Hd2; cbn; rewrite Hd0; by rewrite (assoc_L (∪)), (idemp_L (∪))).
    unfold mbind, ST_mbind, ST_bind.
    replace (path_exists a (fs w2)) with true.
    + cbn [negb]. eexists. split; [reflexivity|]. done.
    + symmetry. unfold path_exists. rewrite Hf2. cbn.
      apply orb_true_iff. right.
      apply bool_decide_eq_true. rewrite lookup_insert_eq. by eexists.
Qed.

(** The close callback writes one setting and one file and nothing else:
    every other setting, every other file and every directory is as
    before. *)
Theorem close_touches_only_geometry_and_autosave self (g : qvariant) w :
  let w' := snd (main_window_close_callback self g w) in
  (forall k, k <> "geometry" -> value (qsettings w') k = value (qsettings w) k)
  /\ (forall path, path <> autosave_filename (config_ self) ->
                   files (fs w') !! path = files (fs w) !! path)
  /\ dirs (fs w') = dirs (fs w)
  /\ fileName (qsettings w') = fileName (qsettings w).
Proof.
  cbv zeta.
  unfold main_window_close_callback, autosave, settings_setValue, store_json,
    event_accept.
  unfold mbind, ST_mbind, ST_bind.
  cbn [snd fs qsettings files dirs setValue store fileName].
  split; [|split; [|done]].
  - intros k Hk. unfold value, setValue. cbn [store]. by rewrite lookup_insert_ne.
  - intros path Hp. by rewrite lookup_insert_ne.
Qed.

End Startup.

(** *** On the concrete shell *)

(** Without a stored and without a default scale the boxes are empty. *)
Lemma startup_scale_source_witness :
  exists bw bh,
    box_width (init_config abspath_id setting_toFloat
                 (init_settings abspath_id ∅ shell_without_cargo)) = Some bw
    /\ box_height (init_config abspath_id setting_toFloat
                     (init_settings abspath_id ∅ shell_without_cargo)) = Some bh
    /\ (bw == 0)%Q /\ (bh == 0)%Q.
Proof.
  destruct (startup_scale_source abspath_id setting_toFloat ∅ shell_without_cargo)
    as (_ & _ & _ & H).
  apply H; vm_compute; reflexivity.
Defined.

(** The geometry stored when the window closes comes back at the next
    start. *)
Lemma geometry_round_trip_witness :
  restored_geometry setting_truthy
    (init_settings abspath_id
       (sync (qsettings (snd (main_window_close_callback example_shell
                                (VBytes "geo") started_world))) ∅)
       example_shell)
  = Some (VBytes "geo").
Proof.
  refine (proj1 (geometry_round_trip abspath_id setting_truthy ∅ example_shell
                   (VBytes "geo") started_world _ _)); reflexivity.
Defined.

Lemma init_environment_missing_subfolder_witness :
  exists w1,
    init_environment no_ancestors "{}" shell_without_cargo empty_world
    = (Raise KeyError, w1)
    /\ files (fs w1) = files (fs empty_world).
Proof.
  destruct (init_environment_missing_subfolder no_ancestors "{}"
              shell_without_cargo empty_world "cargo") as (w1 & H1 & H2 & _).
  - by apply (bool_decide_unpack _); vm_compute.
  - vm_compute. reflexivity.
  - exists w1. split; [exact H1 | exact H2].
Defined.

Lemma init_config_then_environment_witness :
  exists w1 tail,
    init_environment no_ancestors "{}" configured_shell empty_world = (Ok tt, w1)
    /\ log w1 = log empty_world ++
         [FolderCreated "/opt/sets/.config";
          FolderCreated "/opt/sets/.config/library";
          FolderCreated "/opt/sets/.config/cache";
          FolderCreated "/opt/sets/.config/cargo";
          FolderCreated "/opt/sets/.config/images";
          FolderCreated "/opt/sets/.config/ship_images"] ++ tail
    /\ (tail = []
        \/ tail = [JsonStored "/opt/sets/.config\.autosave.json" "{}"]).
Proof.
  apply (init_config_then_environment abspath_id setting_toFloat no_ancestors
           "{}" example_shell empty_world
           "/library" "/cache" "/cargo" "/images" "/ship_images");
    vm_compute; reflexivity.
Defined.

(** The autosave file of an earlier run survives the start. *)
Lemma init_environment_keeps_files_witness :
  files (fs (snd (init_environment no_ancestors "{}" configured_shell used_world)))
    !! "/opt/sets/.config\.autosave.json" = Some "{saved}".
Proof.
  destruct (init_environment_keeps_files no_ancestors "{}" configured_shell
              used_world) as (H & _).
  apply H. vm_compute. reflexivity.
Defined.

Lemma init_environment_twice_witness :
  path_exists "/opt/sets/.config\.autosave.json"
    (fs (snd (init_environment no_ancestors "{}" configured_shell empty_world)))
  = true.
Proof.
  refine (proj1 (init_environment_twice no_ancestors "{}" configured_shell
                   empty_world
                   (snd (init_environment no_ancestors "{}" configured_shell
                           empty_world)) _)).
  vm_compute. reflexivity.
Defined.

(** Closing the window leaves the scale of the interface alone. *)
Lemma close_touches_only_geometry_and_autosave_witness :
  value (qsettings (snd (main_window_close_callback configured_shell
                           (VBytes "geo") started_world))) "ui_scale"
  = value (qsettings started_world) "ui_scale".
Proof.
  destruct (close_touches_only_geometry_and_autosave configured_shell
              (VBytes "geo") started_world) as (H & _).
  apply H. discriminate.
Defined.

(** *** Tooltips *)

Lemma hide_tooltips_inactive (l : list QWindow) :
  hide_tooltips false l =
    map (fun window =>
           if WindowType_eqb (type window) ToolTip then hide window else window) l.
Proof. reflexivity. Qed.

(** [hide_tooltips] does nothing while the main window is active.  When
    it is not, afterwards no tooltip window is visible, while every window
    keeps its place and its type, and every window that is not a tooltip
    is as it was; doing it again changes nothing more. *)
Theorem hide_tooltips_hides_only_tooltips (active : bool) (l : list QWindow) :
  hide_tooltips true l = l
  /\ map type (hide_tooltips active l) = map type l
  /\ (forall i window,
        l !! i = Some window -> type window <> ToolTip ->
        hide_tooltips active l !! i = Some window)
  /\ (forall window,
        window ∈ hide_tooltips false l -> type window = ToolTip ->
        isVisible window = false)
  /\ hide_tooltips active (hide_tooltips active l) = hide_tooltips active l.
Proof.
  split; [reflexivity|].
  assert (Hvis : forall window,
             window ∈ hide_tooltips false l -> type window = ToolTip ->
             isVisible window = false).
  { intros window Hin Ht. rewrite hide_tooltips_inactive in Hin.
    apply list_elem_of_fmap in Hin as (x & Hx & _).
    destruct (WindowType_eqb (type x) ToolTip) eqn:E; subst window;
      [reflexivity|].
    by destruct (type x). }
  destruct active; [by repeat split|].
  rewrite !hide_tooltips_inactive. split; [|split; [|split; [exact Hvis|]]].
  - rewrite map_map. apply map_ext. intros x.
    by destruct (WindowType_eqb (type x) ToolTip).
  - intros i window Hi Ht.
    rewrite (list_lookup_fmap _ l i), Hi. cbn.
    by destruct (type window).
  - rewrite map_map. apply map_ext. intros x.
    destruct (WindowType_eqb (type x) ToolTip) eqn:E; cbn; by rewrite E.
Qed.

Lemma hide_tooltips_hides_only_tooltips_witness :
  hide_tooltips false example_windows =
    [ {| type := Window; isVisible := true |};
      {| type := ToolTip; isVisible := false |};
      {| type := Dialog; isVisible := true |};
      {| type := ToolTip; isVisible := false |} ]
  /\ hide_tooltips false example_windows !! 2%nat
     = Some {| type := Dialog; isVisible := true |}.
Proof.
  split; [reflexivity|].
  destruct (hide_tooltips_hides_only_tooltips false example_windows)
    as (_ & _ & Hkeep & _).
  apply Hkeep; [reflexivity | discriminate].
Defined.

End AppFacts.
